(** * geojson.geometry: coordinate cleaning and shape validation

    A shallow embedding of [geojson/geometry.py]: the Python values the
    module handles, the exceptions it can raise, [Geometry.clean_coordinates],
    the validators [check_point], [check_line_string], [check_polygon], the
    [errors] methods of the geometry classes and of [GeometryCollection], and
    the two constructors. *)

From Stdlib Require Import ZArith List String Ascii Bool QArith Lia.
Import ListNotations.

Local Open Scope string_scope.
Local Open Scope Z_scope.

(** ** Python values *)

(** The classes of [geometry.py] whose instances the module meets.
    [Geometry] itself is documented as an abstract base class; the instances
    are of its six subclasses.  [GeometryCollection] derives from [GeoJSON]
    directly and is not a [Geometry]. *)
Inductive pyclass : Type :=
| Point
| MultiPoint
| LineString
| MultiLineString
| Polygon
| MultiPolygon
| GeometryCollection.

(** [float]: an IEEE-754 binary value, with the constructors of the standard
    library's [SpecFloat].  A NaN carries the identity [id] of its object:
    [==] on the items of a list, tuple or mapping takes one object as equal
    to itself, and a NaN is the one value of the module not equal to itself
    otherwise. *)
Inductive pyfloat : Type :=
| S754_zero (neg : bool)
| S754_infinity (neg : bool)
| S754_finite (neg : bool) (m : positive) (e : Z)
| S754_nan (id : nat).

(** [decimal.Decimal]: a finite sign/coefficient/exponent triple, an infinity
    or a NaN, quiet or signalling, with the identity of its object. *)
Inductive pydecimal : Type :=
| DecFinite (neg : bool) (coeff : N) (exp : Z)
| DecInf (neg : bool)
| DecNaN (signalling : bool) (id : nat).

(** A Python value.  [int] (and Python 2's [long]) is [Z]; [float] is an
    IEEE-754 value; a [GeoJSON] object is a mapping with string keys that
    remembers the order of insertion, tagged with its class.  Of the
    objects only the NaNs carry their identity: two places of a value hold
    one NaN object when they hold the same [id]. *)
#[warnings="-register-all"]
Inductive value : Type :=
| VNone
| VBool (b : bool)
| VInt (n : Z)
| VFloat (f : pyfloat)
| VDecimal (d : pydecimal)
| VStr (s : string)
| VList (xs : list value)
| VTuple (xs : list value)
| VObj (c : pyclass) (items : list (string * value)).

(** Induction over [value] that also gives the hypothesis for the members of
    lists, tuples and mappings. *)
Section ValueInd.
Variable P : value -> Prop.
Hypothesis HNone : P VNone.
Hypothesis HBool : forall b, P (VBool b).
Hypothesis HInt : forall n, P (VInt n).
Hypothesis HFloat : forall f, P (VFloat f).
Hypothesis HDecimal : forall d, P (VDecimal d).
Hypothesis HStr : forall s, P (VStr s).
Hypothesis HList : forall xs, Forall P xs -> P (VList xs).
Hypothesis HTuple : forall xs, Forall P xs -> P (VTuple xs).
Hypothesis HObj : forall c items,
    Forall (fun kv => P (snd kv)) items -> P (VObj c items).

Fixpoint value_nested_ind (v : value) : P v :=
  match v with
  | VNone => HNone
  | VBool b => HBool b
  | VInt n => HInt n
  | VFloat f => HFloat f
  | VDecimal d => HDecimal d
  | VStr s => HStr s
  | VList xs =>
      HList xs ((fix all (l : list value) : Forall P l :=
                   match l with
                   | [] => Forall_nil P
                   | x :: l' => Forall_cons x (value_nested_ind x) (all l')
                   end) xs)
  | VTuple xs =>
      HTuple xs ((fix all (l : list value) : Forall P l :=
                    match l with
                    | [] => Forall_nil P
                    | x :: l' => Forall_cons x (value_nested_ind x) (all l')
                    end) xs)
  | VObj c items =>
      HObj c items
        ((fix all (l : list (string * value))
            : Forall (fun kv => P (snd kv)) l :=
            match l with
            | [] => Forall_nil _
            | kv :: l' =>
                Forall_cons kv (value_nested_ind (snd kv)) (all l')
            end) items)
  end.
End ValueInd.

(** ** Exceptions *)

(** The exceptions that can leave the module.  [ValueError v] is the error of
    line 52, ["%r is not a JSON compliant number" % v]: it carries the value
    its message shows.  [ValidationError errs coords] is the [ValueError] of
    line 35, whose message is built from the errors and the raw
    coordinates.  [InvalidOperation] is what [decimal] raises when a
    signalling NaN is compared. *)
Inductive exn : Type :=
| ValueError (offending : value)
| ValidationError (errs coords : value)
| TypeError
| KeyError
| IndexError
| AttributeError
| InvalidOperation.

Inductive result (A : Type) : Type :=
| Ok (a : A)
| Raise (e : exn).
Arguments Ok {A} a.
Arguments Raise {A} e.

Definition bind {A B : Type} (m : result A) (k : A -> result B) : result B :=
  match m with
  | Ok a => k a
  | Raise e => Raise e
  end.

Notation "x <- m ;; k" := (bind m (fun x => k))
  (at level 100, m at next level, right associativity).

(** A loop that builds a list and stops at the first exception. *)
Fixpoint mapM {A B : Type} (f : A -> result B) (l : list A) : result (list B) :=
  match l with
  | [] => Ok []
  | x :: l' => y <- f x ;; ys <- mapM f l' ;; Ok (y :: ys)
  end.

(** The builtin [all] over a generator: it stops at the first false element
    and at the first exception. *)
Fixpoint allM {A : Type} (f : A -> result bool) (l : list A) : result bool :=
  match l with
  | [] => Ok true
  | x :: l' => b <- f x ;; if b then allM f l' else Ok false
  end.

(** ** Builtins *)

(** [isinstance(v, (list, tuple))]. *)
Definition is_list_or_tuple (v : value) : bool :=
  match v with
  | VList _ | VTuple _ => true
  | _ => false
  end.

(** [isinstance(v, list)]. *)
Definition is_list (v : value) : bool :=
  match v with
  | VList _ => true
  | _ => false
  end.

(** [isinstance(v, Point)]: no class of the module derives from [Point]. *)
Definition isinstance_Point (v : value) : bool :=
  match v with
  | VObj Point _ => true
  | _ => false
  end.

(** [isinstance(v, Geometry)]: the six geometry classes, not
    [GeometryCollection]. *)
Definition isinstance_Geometry (v : value) : bool :=
  match v with
  | VObj GeometryCollection _ => false
  | VObj _ _ => true
  | _ => false
  end.

(** [isinstance(v, _JSON_compliant_types)], the tuple being
    [(float, int, Decimal)] with [long] added on Python 2.  [bool] is a
    subclass of [int], so the test holds of [True] and [False]. *)
Definition is_JSON_compliant (v : value) : bool :=
  match v with
  | VBool _ | VInt _ | VFloat _ | VDecimal _ => true
  | _ => false
  end.

(** The characters of a string, each a string of length one. *)
Fixpoint chars (s : string) : list value :=
  match s with
  | EmptyString => []
  | String a s' => VStr (String a EmptyString) :: chars s'
  end.

(** The keys of a mapping, in order. *)
Definition keys (items : list (string * value)) : list value :=
  map (fun kv => VStr (fst kv)) items.

(** [for x in v]: the elements of a list or tuple, the characters of a string,
    the keys of a mapping; the other values are not iterable. *)
Definition py_iter (v : value) : result (list value) :=
  match v with
  | VList xs | VTuple xs => Ok xs
  | VStr s => Ok (chars s)
  | VObj _ items => Ok (keys items)
  | _ => Raise TypeError
  end.

(** [len(v)]. *)
Definition py_len (v : value) : result Z :=
  match v with
  | VList xs | VTuple xs => Ok (Z.of_nat (List.length xs))
  | VStr s => Ok (Z.of_nat (String.length s))
  | VObj _ items => Ok (Z.of_nat (List.length items))
  | _ => Raise TypeError
  end.

(** [d[k]] for a string key [k]. *)
Fixpoint lookup (k : string) (items : list (string * value)) : option value :=
  match items with
  | [] => None
  | (k', v) :: items' => if String.eqb k k' then Some v else lookup k items'
  end.

(** [d[k] = v]: an existing key keeps its place. *)
Fixpoint dict_set (k : string) (v : value) (items : list (string * value))
  : list (string * value) :=
  match items with
  | [] => [(k, v)]
  | (k', v') :: items' =>
      if String.eqb k k' then (k, v) :: items'
      else (k', v') :: dict_set k v items'
  end.

(** [v[k]] for a string key: used on [GeoJSON] objects only. *)
Definition getitem_key (v : value) (k : string) : result value :=
  match v with
  | VObj _ items =>
      match lookup k items with
      | Some x => Ok x
      | None => Raise KeyError
      end
  | _ => Raise TypeError
  end.

(** [v[i]] for an integer [i]; a negative index counts from the end.  The
    mappings of the model have string keys, so an integer is never found. *)
Definition getitem_idx (v : value) (i : Z) : result value :=
  let at_index (xs : list value) :=
    let n := Z.of_nat (List.length xs) in
    let j := if i <? 0 then i + n else i in
    if (0 <=? j) && (j <? n)
    then match nth_error xs (Z.to_nat j) with
         | Some x => Ok x
         | None => Raise IndexError
         end
    else Raise IndexError in
  match v with
  | VList xs | VTuple xs => at_index xs
  | VStr s => at_index (chars s)
  | VObj _ _ => Raise KeyError
  | _ => Raise TypeError
  end.

(** *** Equality [==] *)

(** The exact numeric value of a number, for comparisons across [int],
    [float] and [Decimal]. *)
Inductive numval : Type :=
| NaN
| Inf (neg : bool)
| Fin (q : Q).

Definition numval_of (v : value) : option numval :=
  match v with
  | VBool b => Some (Fin (if b then 1 else 0)%Q)
  | VInt n => Some (Fin (inject_Z n))
  | VFloat (S754_zero _) => Some (Fin 0%Q)
  | VFloat (S754_infinity s) => Some (Inf s)
  | VFloat (S754_nan _) => Some NaN
  | VFloat (S754_finite s m e) =>
      Some (Fin ((inject_Z (if s then Z.neg m else Z.pos m))
                 * Qpower 2 e)%Q)
  | VDecimal (DecFinite s c e) =>
      Some (Fin ((inject_Z (if s then - Z.of_N c else Z.of_N c))
                 * Qpower 10 e)%Q)
  | VDecimal (DecInf s) => Some (Inf s)
  | VDecimal (DecNaN _ _) => Some NaN
  | _ => None
  end.

Definition numval_eqb (a b : numval) : bool :=
  match a, b with
  | Fin p, Fin q => Qeq_bool p q
  | Inf s, Inf t => Bool.eqb s t
  | _, _ => false
  end.

(** [a is b] for two NaN objects. *)
Definition same_nan (a b : value) : bool :=
  match a, b with
  | VFloat (S754_nan i), VFloat (S754_nan j) => Nat.eqb i j
  | VDecimal (DecNaN s i), VDecimal (DecNaN t j) =>
      Bool.eqb s t && Nat.eqb i j
  | _, _ => false
  end.

Definition is_signalling (v : value) : bool :=
  match v with
  | VDecimal (DecNaN true _) => true
  | _ => false
  end.

(** [a == b] for two numbers: by exact value, a quiet NaN equal to nothing;
    a signalling NaN on either side raises. *)
Definition num_eq (a b : value) : result bool :=
  if is_signalling a || is_signalling b then Raise InvalidOperation
  else
    match numval_of a, numval_of b with
    | Some p, Some q => Ok (numval_eqb p q)
    | _, _ => Ok false
    end.

(** [a == b].  Two numbers compare by [num_eq].  Two lists of one length
    compare item by item up to the first pair that differs; two tuples do
    the same, their lengths compared only when one runs out; two mappings of
    one size compare key by key, whatever their order and class.  A pair of
    items is equal when it is one object, and is compared by [==] otherwise:
    that only matters for a NaN, every other value being equal to itself.
    Values of different kinds are not equal. *)
Fixpoint py_eq (a b : value) {struct a} : result bool :=
  match a, b with
  | VNone, VNone => Ok true
  | VStr s, VStr t => Ok (String.eqb s t)
  | VList xs, VList ys =>
      if negb (Nat.eqb (List.length xs) (List.length ys)) then Ok false
      else
        (fix each (l1 l2 : list value) {struct l1} : result bool :=
           match l1, l2 with
           | x :: l1', y :: l2' =>
               same <- (if same_nan x y then Ok true else py_eq x y) ;;
               if same then each l1' l2' else Ok false
           | _, _ => Ok true
           end) xs ys
  | VTuple xs, VTuple ys =>
      (fix each (l1 l2 : list value) {struct l1} : result bool :=
         match l1, l2 with
         | x :: l1', y :: l2' =>
             same <- (if same_nan x y then Ok true else py_eq x y) ;;
             if same then each l1' l2' else Ok false
         | [], [] => Ok true
         | _, _ => Ok false
         end) xs ys
  | VObj _ d1, VObj _ d2 =>
      if negb (Nat.eqb (List.length d1) (List.length d2)) then Ok false
      else
        (fix each (l : list (string * value)) : result bool :=
           match l with
           | [] => Ok true
           | (k, x) :: l' =>
               match lookup k d2 with
               | Some y =>
                   same <- (if same_nan x y then Ok true else py_eq x y) ;;
                   if same then each l' else Ok false
               | None => Ok false
               end
           end) d1
  | _, _ =>
      if is_JSON_compliant a && is_JSON_compliant b then num_eq a b
      else Ok false
  end.

(** Truth value of [v], as [if v] and [v or w] test it. *)
Definition py_truthy (v : value) : bool :=
  match v with
  | VNone => false
  | VBool b => b
  | VInt n => negb (n =? 0)
  | VFloat (S754_zero _) => false
  | VFloat _ => true
  | VDecimal (DecFinite _ c _) => negb (N.eqb c 0)
  | VDecimal _ => true
  | VStr s => negb (String.eqb s "")
  | VList xs | VTuple xs => negb (Nat.eqb (List.length xs) 0)
  | VObj _ items => negb (Nat.eqb (List.length items) 0)
  end.

(** ** Geometry.clean_coordinates *)

(** The body of the loop of lines 44-52 for one element; [rec] is the
    recursive call of line 46. *)
Definition clean_coord (rec : value -> result value) (coord : value)
  : result value :=
  if is_list_or_tuple coord then rec coord
  else if isinstance_Geometry coord then getitem_key coord "coordinates"
  else if is_JSON_compliant coord then Ok coord
  else Raise (ValueError coord).

(** [new_coords] after lines 41-43. *)
Definition initial_coords (coords : value) : list value :=
  if isinstance_Point coords then [coords] else [].

(** [clean_coordinates(coords)].  The recursion is on the elements of a list
    or tuple; the characters of a string and the keys of a mapping are
    strings, for which the loop body needs no recursive call.
    [clean_coordinates_eq] below gives the equation in the shape of the
    source. *)
Fixpoint clean_coordinates (coords : value) : result value :=
  match coords with
  | VList xs | VTuple xs =>
      new_coords <- mapM (clean_coord clean_coordinates) xs ;;
      Ok (VList new_coords)
  | _ =>
      elems <- py_iter coords ;;
      new_coords <- mapM (clean_coord (fun _ => Raise TypeError)) elems ;;
      Ok (VList (initial_coords coords ++ new_coords))
  end.

(** ** Validators *)

(** Truth value of what a check function returns: [None] and the empty string
    are false. *)
Definition is_error (e : option string) : bool :=
  match e with
  | None => false
  | Some s => negb (String.eqb s "")
  end.

Definition position_not_list : string := "each position must be a list".
Definition position_bad_arity : string :=
  "a position must have exactly 2 or 3 values".
Definition position_not_number : string :=
  "each value in a position must be a number".
Definition line_not_list : string := "each line must be a list of positions".
Definition dquote : string := String (ascii_of_nat 34) EmptyString.
Definition line_too_short : string :=
  Eval cbv in
    "the " ++ dquote ++ "coordinates" ++ dquote
    ++ " member must be an array of two or more positions".
Definition ring_too_short : string :=
  "LinearRing must contain with 4 or more positions".
Definition ring_not_closed : string :=
  "The first and last positions in LinearRing must be equivalent".

(** The loop of lines 77-79. *)
Fixpoint check_numbers (coord : list value) : option string :=
  match coord with
  | [] => None
  | num :: coord' =>
      if negb (is_JSON_compliant num) then Some position_not_number
      else check_numbers coord'
  end.

(** [check_point(coord)], lines 72-79.  No step of it can raise. *)
Definition check_point (coord : value) : option string :=
  match coord with
  | VList xs =>
      let n := Z.of_nat (List.length xs) in
      if negb ((n =? 2) || (n =? 3)) then Some position_bad_arity
      else check_numbers xs
  | _ => Some position_not_list
  end.

(** The loop of lines 98-101. *)
Fixpoint check_positions (coord : list value) : option string :=
  match coord with
  | [] => None
  | pos :: coord' =>
      let error := check_point pos in
      if is_error error then error else check_positions coord'
  end.

(** [check_line_string(coord)], lines 92-101. *)
Definition check_line_string (coord : value) : option string :=
  match coord with
  | VList xs =>
      if Z.of_nat (List.length xs) <? 2 then Some line_too_short
      else check_positions xs
  | _ => Some line_not_list
  end.

(** [len(elem) >= 4], the test of line 115. *)
Definition ring_long_enough (elem : value) : result bool :=
  n <- py_len elem ;; Ok (4 <=? n).

(** [elem[0] == elem[-1]], the test of line 119. *)
Definition ring_closed (elem : value) : result bool :=
  first <- getitem_idx elem 0 ;;
  last <- getitem_idx elem (-1) ;;
  py_eq first last.

(** [check_polygon(coord)], lines 114-121. *)
Definition check_polygon (coord : value) : result (option string) :=
  elems <- py_iter coord ;;
  lengths <- allM ring_long_enough elems ;;
  if negb lengths then Ok (Some ring_too_short)
  else
    isring <- allM ring_closed elems ;;
    if negb isring then Ok (Some ring_not_closed)
    else Ok None.

(** Modelled from the spec: [check_list_errors], a method the geometry classes
    inherit from [GeoJSON] ([geojson/base.py], which is not among the sources;
    only its callers at lines 89, 111 and 131 are).  The spec: it "applies a
    given per-element check function across a sequence and returns the first
    non-empty result encountered (order-preserving scan, stops at first error
    - not an aggregate of all errors for that kind)". *)
Fixpoint first_error (checkFunc : value -> result (option string))
  (lst : list value) : result (option string) :=
  match lst with
  | [] => Ok None
  | x :: lst' =>
      error <- checkFunc x ;;
      if is_error error then Ok error else first_error checkFunc lst'
  end.

Definition check_list_errors (checkFunc : value -> result (option string))
  (lst : value) : result (option string) :=
  elems <- py_iter lst ;; first_error checkFunc elems.

(** ** The [errors] methods *)

Definition Point_errors (self : value) : result (option string) :=
  coordinates <- getitem_key self "coordinates" ;;
  Ok (check_point coordinates).

Definition MultiPoint_errors (self : value) : result (option string) :=
  coordinates <- getitem_key self "coordinates" ;;
  check_list_errors (fun c => Ok (check_point c)) coordinates.

Definition LineString_errors (self : value) : result (option string) :=
  coordinates <- getitem_key self "coordinates" ;;
  Ok (check_line_string coordinates).

Definition MultiLineString_errors (self : value) : result (option string) :=
  coordinates <- getitem_key self "coordinates" ;;
  check_list_errors (fun c => Ok (check_line_string c)) coordinates.

Definition Polygon_errors (self : value) : result (option string) :=
  coordinates <- getitem_key self "coordinates" ;;
  check_polygon coordinates.

Definition MultiPolygon_errors (self : value) : result (option string) :=
  coordinates <- getitem_key self "coordinates" ;;
  check_list_errors check_polygon coordinates.

(** What a check returns, as a Python value. *)
Definition of_error (e : option string) : value :=
  match e with
  | None => VNone
  | Some s => VStr s
  end.

(** [GeometryCollection.errors], lines 65-67; [errors_method] is the call
    [geom.errors()], which Python resolves on the class of [geom]. *)
Definition GeometryCollection_errors (errors_method : value -> result value)
  (self : value) : result value :=
  geometries <- getitem_key self "geometries" ;;
  geoms <- py_iter geometries ;;
  errors <- mapM errors_method geoms ;;
  Ok (VList (filter py_truthy errors)).

(** [self.errors()], resolved on the class of [self]; a value that is not an
    object of the module has no such method.  For a collection the recursion
    is on the members found under ["geometries"]; [errors_GeometryCollection]
    below gives the equation in the shape of the source. *)
Fixpoint errors (self : value) : result value :=
  match self with
  | VObj Point _ => e <- Point_errors self ;; Ok (of_error e)
  | VObj MultiPoint _ => e <- MultiPoint_errors self ;; Ok (of_error e)
  | VObj LineString _ => e <- LineString_errors self ;; Ok (of_error e)
  | VObj MultiLineString _ =>
      e <- MultiLineString_errors self ;; Ok (of_error e)
  | VObj Polygon _ => e <- Polygon_errors self ;; Ok (of_error e)
  | VObj MultiPolygon _ => e <- MultiPolygon_errors self ;; Ok (of_error e)
  | VObj GeometryCollection items =>
      (fix find (d : list (string * value)) : result value :=
         match d with
         | [] => Raise KeyError
         | (k, geometries) :: d' =>
             if String.eqb "geometries" k then
               match geometries with
               | VList geoms | VTuple geoms =>
                   errs <- mapM errors geoms ;;
                   Ok (VList (filter py_truthy errs))
               | _ =>
                   geoms <- py_iter geometries ;;
                   errs <- mapM (fun _ => Raise AttributeError) geoms ;;
                   Ok (VList (filter py_truthy errs))
               end
             else find d'
         end) items
  | _ => Raise AttributeError
  end.

(** ** Construction *)

(** [a or b]. *)
Definition py_or (a b : value) : value := if py_truthy a then a else b.

(** [Geometry.__init__], lines 29-35, called on class [cls] with [crs=None].
    [base] is the mapping as the constructor of [GeoJSON] leaves it (line 29);
    that class is in [geojson/base.py], not among the sources. *)
Definition Geometry_init (cls : pyclass) (base : list (string * value))
  (coordinates : value) (validate : bool) : result value :=
  tree <- clean_coordinates (py_or coordinates (VList [])) ;;
  let self := VObj cls (dict_set "coordinates" tree base) in
  if validate then
    errs <- errors self ;;
    if py_truthy errs then Raise (ValidationError errs coordinates)
    else Ok self
  else Ok self.

(** [GeometryCollection.__init__], lines 62-63. *)
Definition GeometryCollection_init (base : list (string * value))
  (geometries : value) : value :=
  VObj GeometryCollection
    (dict_set "geometries" (py_or geometries (VList [])) base).

(** ** Shapes of coordinate data *)

(** Every leaf of [v], a leaf being whatever is not a list, is a number. *)
Fixpoint all_leaves_numbers (v : value) : bool :=
  match v with
  | VList xs => forallb all_leaves_numbers xs
  | _ => is_JSON_compliant v
  end.

(** A canonical coordinate tree: a list, nested to any depth, whose leaves
    are numbers. *)
Definition coordinate_tree (v : value) : bool :=
  is_list v && all_leaves_numbers v.

(** An element the loop of [clean_coordinates] has no branch for: not a list
    or tuple, not a [Geometry], not a number. *)
Definition unrecognised (v : value) : bool :=
  negb (is_list_or_tuple v) && negb (isinstance_Geometry v)
  && negb (is_JSON_compliant v).

(** Some element of [raw], at any depth of lists and tuples, is
    unrecognised. *)
Fixpoint has_unrecognised (raw : value) : bool :=
  match raw with
  | VList xs | VTuple xs =>
      existsb (fun x => unrecognised x || has_unrecognised x) xs
  | _ => false
  end.

(** The elements of a list or tuple. *)
Definition elements (v : value) : option (list value) :=
  match v with
  | VList xs | VTuple xs => Some xs
  | _ => None
  end.

(** The loop of [clean_coordinates] gets through the elements [xs] without
    an exception. *)
Definition all_normalize (xs : list value) : bool :=
  match mapM (clean_coord clean_coordinates) xs with
  | Ok _ => true
  | Raise _ => false
  end.

(** [v] is an element of [raw], or of a list or tuple that is an element of
    [raw], and so on to any depth; at each level the elements that come
    before satisfy [P]. *)
Inductive element_at (P : list value -> Prop) (v : value) : value -> Prop :=
| element_here (raw : value) (pre post : list value) :
    elements raw = Some (pre ++ v :: post)%list ->
    P pre ->
    element_at P v raw
| element_below (raw sub : value) (pre post : list value) :
    elements raw = Some (pre ++ sub :: post)%list ->
    P pre ->
    element_at P v sub ->
    element_at P v raw.

(** [v] occurs in [raw] at some depth of lists and tuples. *)
Definition occurs (v raw : value) : Prop :=
  element_at (fun _ => True) v raw.

(** [v] occurs in [raw] and the loop reaches it: at each level the elements
    before it normalize. *)
Definition reached (v raw : value) : Prop :=
  element_at (fun pre => all_normalize pre = true) v raw.

(** Every [Geometry] met among the elements of [raw] holds a canonical tree
    under ["coordinates"], as [Geometry.__init__] leaves it. *)
Fixpoint geometries_clean (raw : value) : bool :=
  match raw with
  | VList xs | VTuple xs => forallb geometries_clean xs
  | VObj _ items =>
      if isinstance_Geometry raw then
        match lookup "coordinates" items with
        | Some t => coordinate_tree t
        | None => false
        end
      else true
  | _ => true
  end.

(** The Position check in the words of the specification: the input must be
    a sequence (a list, as the message says), must have exactly 2 or 3
    elements, and every element must be a number; the first condition that
    fails gives the message. *)
Definition position_check (coord : value) : option string :=
  match coord with
  | VList xs =>
      let arity := Z.of_nat (List.length xs) in
      if negb ((arity =? 2) || (arity =? 3)) then Some position_bad_arity
      else if negb (forallb is_JSON_compliant xs) then Some position_not_number
      else None
  | _ => Some position_not_list
  end.

(** A valid position: a list of 2 or 3 numbers. *)
Definition valid_position (p : value) : bool :=
  match p with
  | VList xs =>
      let n := Z.of_nat (List.length xs) in
      ((n =? 2) || (n =? 3)) && forallb is_JSON_compliant xs
  | _ => false
  end.

(** A valid line: a list of two or more valid positions. *)
Definition valid_line (coord : value) : bool :=
  match coord with
  | VList xs =>
      (2 <=? Z.of_nat (List.length xs)) && forallb valid_position xs
  | _ => false
  end.

(** [v] is a number, or a list or tuple, nested to any depth, of numbers. *)
Fixpoint plain (v : value) : bool :=
  match v with
  | VList xs | VTuple xs => forallb plain xs
  | _ => is_JSON_compliant v
  end.

(** The tree [v] with every tuple turned into a list. *)
Fixpoint listify (v : value) : value :=
  match v with
  | VList xs | VTuple xs => VList (map listify xs)
  | _ => v
  end.

(** Two rings of the same length that begin with the same element and end
    with the same element, the same NaN objects where these hold any. *)
Definition same_ends (r r' : list value) : Prop :=
  List.length r = List.length r'
  /\ hd VNone r = hd VNone r'
  /\ last r VNone = last r' VNone.

(** ** Concrete inputs *)

(** The position [[x, y]]. *)
Definition position (x y : Z) : value := VList [VInt x; VInt y].

(** An object of class [cls] as [Geometry.__init__] builds it over an empty
    base mapping, holding [coordinates]. *)
Definition geometry (cls : pyclass) (coordinates : value) : value :=
  VObj cls [("coordinates", coordinates)].

(** [[[0,0],[1,0],[1,1],[0,0]]]: four positions, closed. *)
Definition closed_ring : value :=
  VList [position 0 0; position 1 0; position 1 1; position 0 0].

(** [[[0,0],[1,0],[1,1],[2,2]]]: four positions, not closed. *)
Definition open_ring : value :=
  VList [position 0 0; position 1 0; position 1 1; position 2 2].


(** [[[0,0],[1,0],[1,1]]]: three positions. *)
Definition short_ring : value :=
  VList [position 0 0; position 1 0; position 1 1].

(** ** The error monad *)

Lemma bind_Ok {A B : Type} (a : A) (k : A -> result B) :
  bind (Ok a) k = k a.
Proof. reflexivity. Qed.

Lemma bind_Raise {A B : Type} (e : exn) (k : A -> result B) :
  bind (Raise e) k = Raise e.
Proof. reflexivity. Qed.

Lemma bind_ret {A : Type} (m : result A) : bind m Ok = m.
Proof. destruct m; reflexivity. Qed.

Lemma mapM_ext {A B : Type} (f g : A -> result B) (l : list A) :
  Forall (fun x => f x = g x) l -> mapM f l = mapM g l.
Proof.
  induction 1 as [|x l Hx _ IH]; simpl.
  - reflexivity.
  - rewrite Hx, IH. reflexivity.
Qed.

Lemma mapM_id (f : value -> result value) (l : list value) :
  Forall (fun x => f x = Ok x) l -> mapM f l = Ok l.
Proof.
  induction 1 as [|x l Hx _ IH]; simpl.
  - reflexivity.
  - rewrite Hx, IH. reflexivity.
Qed.

Lemma mapM_app {A B : Type} (f : A -> result B) (l1 l2 : list A) :
  mapM f (l1 ++ l2) =
    (ys1 <- mapM f l1 ;; ys2 <- mapM f l2 ;; Ok (ys1 ++ ys2)%list).
Proof.
  induction l1 as [|x l1 IH]; simpl.
  - rewrite bind_ret. reflexivity.
  - destruct (f x) as [y|e]; simpl; [|reflexivity].
    rewrite IH. destruct (mapM f l1) as [ys1|e]; simpl; [|reflexivity].
    destruct (mapM f l2); reflexivity.
Qed.

Lemma mapM_Forall2 {A B : Type} (f : A -> result B) (l : list A)
  (ys : list B) :
  mapM f l = Ok ys <-> Forall2 (fun x y => f x = Ok y) l ys.
Proof.
  revert ys. induction l as [|x l IH]; intros ys; simpl.
  - split.
    + intros H. injection H as <-. constructor.
    + intros H. inversion H. reflexivity.
  - split.
    + destruct (f x) as [y|e] eqn:Hx; simpl; [|discriminate].
      destruct (mapM f l) as [ys'|e] eqn:Hl; simpl; [|discriminate].
      intros H. injection H as <-. constructor; [assumption|].
      apply IH. reflexivity.
    + intros H. inversion H as [|x' y l' ys' Hx Hl]; subst.
      rewrite Hx. simpl. apply IH in Hl. rewrite Hl. reflexivity.
Qed.

(** ** The equations of the recursive definitions, in the shape of the
    source *)

Lemma clean_coord_not_sequence (rec1 rec2 : value -> result value)
  (coord : value) :
  is_list_or_tuple coord = false ->
  clean_coord rec1 coord = clean_coord rec2 coord.
Proof. unfold clean_coord. intros ->. reflexivity. Qed.

Lemma chars_not_sequence (s : string) :
  Forall (fun x => is_list_or_tuple x = false) (chars s).
Proof. induction s; simpl; constructor; auto. Qed.

Lemma keys_not_sequence (items : list (string * value)) :
  Forall (fun x => is_list_or_tuple x = false) (keys items).
Proof. induction items; simpl; constructor; auto. Qed.

(** Lines 40-53 as written: the Point test and append, then the loop over
    [coords], then the return. *)
Lemma clean_coordinates_eq (coords : value) :
  clean_coordinates coords =
    (let new_coords := initial_coords coords in
     elems <- py_iter coords ;;
     rest <- mapM (clean_coord clean_coordinates) elems ;;
     Ok (VList (new_coords ++ rest))).
Proof.
  destruct coords; try reflexivity.
  - (* str *)
    simpl. f_equal.
    rewrite (mapM_ext _ (clean_coord clean_coordinates)); [reflexivity|].
    eapply Forall_impl; [|apply chars_not_sequence].
    intros x Hx. apply clean_coord_not_sequence, Hx.
  - (* object *)
    cbn [clean_coordinates py_iter bind].
    rewrite (mapM_ext _ (clean_coord clean_coordinates)); [reflexivity|].
    eapply Forall_impl; [|apply keys_not_sequence].
    intros x Hx. apply clean_coord_not_sequence, Hx.
Qed.

Lemma chars_strings (s : string) :
  Forall (fun x => exists s', x = VStr s') (chars s).
Proof. induction s; simpl; constructor; eauto. Qed.

Lemma keys_strings (items : list (string * value)) :
  Forall (fun x => exists s', x = VStr s') (keys items).
Proof. induction items; simpl; constructor; eauto. Qed.

Lemma errors_of_string (l : list value) :
  Forall (fun x => exists s, x = VStr s) l ->
  mapM (fun _ => Raise AttributeError) l = mapM errors l.
Proof.
  intros H. apply mapM_ext. eapply Forall_impl; [|exact H].
  intros x [s ->]. reflexivity.
Qed.


(** Lines 65-67 as written, [geom.errors()] being [errors]. *)
Lemma errors_GeometryCollection (items : list (string * value)) :
  errors (VObj GeometryCollection items) =
    GeometryCollection_errors errors (VObj GeometryCollection items).
Proof.
  unfold GeometryCollection_errors, getitem_key.
  induction items as [|[k v] items IH].
  - reflexivity.
  - cbn [errors lookup] in *.
    destruct (String.eqb "geometries" k).
    + destruct v; try reflexivity.
      * cbn [bind py_iter].
        rewrite (errors_of_string (chars s)); auto using chars_strings.
      * cbn [bind py_iter].
        rewrite (errors_of_string (keys items0)); auto using keys_strings.
    + exact IH.
Qed.

(** ** clean_coordinates *)

Lemma clean_coord_number (rec : value -> result value) (n : value) :
  is_JSON_compliant n = true -> clean_coord rec n = Ok n.
Proof. destruct n; try discriminate; reflexivity. Qed.

Lemma clean_coord_unrecognised (rec : value -> result value) (v : value) :
  unrecognised v = true -> clean_coord rec v = Raise (ValueError v).
Proof.
  unfold unrecognised, clean_coord. intros H.
  apply andb_prop in H as [H H3]. apply andb_prop in H as [H1 H2].
  apply negb_true_iff in H1, H2, H3. rewrite H1, H2, H3. reflexivity.
Qed.

(** An element whose leaves are numbers is appended as it is. *)
Lemma clean_coord_canonical (v : value) :
  all_leaves_numbers v = true -> clean_coord clean_coordinates v = Ok v.
Proof.
  induction v as [| | | | | |xs IH|xs IH|c items IH] using value_nested_ind;
    try discriminate; try reflexivity.
  intros H. cbn [all_leaves_numbers] in H.
  unfold clean_coord. cbn [is_list_or_tuple clean_coordinates].
  rewrite mapM_id; [reflexivity|].
  rewrite forallb_forall in H. rewrite Forall_forall in *.
  intros x Hx. apply IH; auto.
Qed.

Lemma clean_coordinates_canonical (t : value) :
  coordinate_tree t = true -> clean_coordinates t = Ok t.
Proof.
  unfold coordinate_tree. intros H. apply andb_prop in H as [Hl Ht].
  destruct t; try discriminate.
  apply clean_coord_canonical in Ht. exact Ht.
Qed.

(** What the loop appends for an element has numbers for leaves, provided the
    geometries met hold canonical trees. *)
Lemma clean_coord_leaves (x : value) :
  geometries_clean x = true ->
  forall y, clean_coord clean_coordinates x = Ok y ->
            all_leaves_numbers y = true.
Proof.
  assert (Hseq : forall xs,
             Forall (fun x => geometries_clean x = true ->
                              forall y, clean_coord clean_coordinates x = Ok y
                                        -> all_leaves_numbers y = true) xs ->
             forallb geometries_clean xs = true ->
             forall ys, mapM (clean_coord clean_coordinates) xs = Ok ys ->
                        forallb all_leaves_numbers ys = true).
  { induction 1 as [|x0 xs Hx _ IH]; simpl; intros Hg ys E.
    - injection E as <-. reflexivity.
    - apply andb_prop in Hg as [Hg1 Hg2].
      destruct (clean_coord clean_coordinates x0) as [y|] eqn:Ey;
        [|discriminate].
      destruct (mapM (clean_coord clean_coordinates) xs) as [ys'|] eqn:Eys;
        [|discriminate].
      injection E as <-. simpl.
      rewrite (Hx Hg1 y eq_refl), (IH Hg2 ys' eq_refl). reflexivity. }
  induction x as [| | | | | |xs IH|xs IH|c items IH] using value_nested_ind;
    intros Hg y E; try discriminate;
    try (injection E as <-; reflexivity).
  - unfold clean_coord in E. cbn [is_list_or_tuple clean_coordinates] in E.
    destruct (mapM (clean_coord clean_coordinates) xs) as [ys|] eqn:Eys;
      [|discriminate].
    injection E as <-. cbn [all_leaves_numbers]. eapply Hseq; eauto.
  - unfold clean_coord in E. cbn [is_list_or_tuple clean_coordinates] in E.
    destruct (mapM (clean_coord clean_coordinates) xs) as [ys|] eqn:Eys;
      [|discriminate].
    injection E as <-. cbn [all_leaves_numbers]. eapply Hseq; eauto.
  - unfold clean_coord in E. cbn [is_list_or_tuple] in E.
    cbn [geometries_clean] in Hg.
    destruct (isinstance_Geometry (VObj c items)); [|discriminate].
    cbn [getitem_key] in E.
    destruct (lookup "coordinates" items) as [t|]; [|discriminate].
    injection E as <-. unfold coordinate_tree in Hg.
    apply andb_prop in Hg as [_ Hg]. exact Hg.
Qed.

(** X1. The invariant of the normalizer away from line 43: when the raw input is
    not itself a Point and the geometries it holds are well formed, a
    successful call returns a canonical tree. *)
Lemma clean_coordinates_leaves (raw t : value) :
  isinstance_Point raw = false ->
  geometries_clean raw = true ->
  clean_coordinates raw = Ok t ->
  coordinate_tree t = true.
Proof.
  intros HP Hg E. rewrite clean_coordinates_eq in E. cbv zeta in E.
  unfold initial_coords in E. rewrite HP in E.
  destruct (py_iter raw) as [elems|] eqn:Ei; [|discriminate].
  cbn [bind] in E.
  destruct (mapM (clean_coord clean_coordinates) elems) as [ys|] eqn:Eys;
    [|discriminate].
  injection E as <-. unfold coordinate_tree.
  cbn [is_list all_leaves_numbers app].
  cbn [andb].
  assert (Hel : Forall (fun x => geometries_clean x = true) elems).
  { destruct raw; try discriminate; injection Ei as <-.
    - eapply Forall_impl; [|apply chars_strings].
      intros x [s' ->]. reflexivity.
    - cbn [geometries_clean] in Hg. rewrite forallb_forall in Hg.
      apply Forall_forall. exact Hg.
    - cbn [geometries_clean] in Hg. rewrite forallb_forall in Hg.
      apply Forall_forall. exact Hg.
    - eapply Forall_impl; [|apply keys_strings].
      intros x [s' ->]. reflexivity. }
  clear Ei Hg HP. revert ys Eys.
  induction Hel as [|x elems Hx _ IH]; simpl; intros ys E.
  - injection E as <-. reflexivity.
  - destruct (clean_coord clean_coordinates x) as [y|] eqn:Ey; [|discriminate].
    destruct (mapM (clean_coord clean_coordinates) elems) as [ys'|];
      [|discriminate].
    injection E as <-. simpl.
    rewrite (clean_coord_leaves x Hx y Ey), (IH ys' eq_refl). reflexivity.
Qed.

(** X2. A tree holding an unrecognised element at any depth of lists and
    tuples does not normalize. *)
Lemma clean_coordinates_fails_deep (raw : value) :
  has_unrecognised raw = true -> exists e, clean_coordinates raw = Raise e.
Proof.
  assert (Hseq : forall xs,
             Forall (fun x => has_unrecognised x = true ->
                              exists e, clean_coordinates x = Raise e) xs ->
             existsb (fun x => unrecognised x || has_unrecognised x) xs = true
             -> exists e, mapM (clean_coord clean_coordinates) xs = Raise e).
  { induction 1 as [|x xs Hx _ IH]; simpl; intros H; [discriminate|].
    destruct (clean_coord clean_coordinates x) as [y|e] eqn:Ey;
      [|eexists; reflexivity].
    apply orb_prop in H as [H|H].
    - apply orb_prop in H as [H|H].
      + rewrite clean_coord_unrecognised in Ey by exact H. discriminate.
      + destruct (Hx H) as [e He].
        assert (Hs : is_list_or_tuple x = true)
          by (destruct x; try discriminate; reflexivity).
        unfold clean_coord in Ey. rewrite Hs in Ey. congruence.
    - destruct (IH H) as [e ->]. eexists; reflexivity. }
  induction raw as [| | | | | |xs IH|xs IH|c items IH] using value_nested_ind;
    try discriminate; intros H; cbn [has_unrecognised] in H;
    destruct (Hseq xs IH H) as [e He]; exists e;
    cbn [clean_coordinates]; rewrite He; reflexivity.
Qed.

(** C9. [clean_coordinates] is the identity on canonical trees: for a number
    [n], [clean_coordinates([n])] is [[n]]; for a canonical tree [t] (nested
    lists whose leaves are numbers), [clean_coordinates(t)] is [t], so that
    cleaning the cleaned tree gives the same result as cleaning once. *)
Theorem clean_coordinates_idempotent (n t : value) :
  is_JSON_compliant n = true ->
  coordinate_tree t = true ->
  clean_coordinates (VList [n]) = Ok (VList [n])
  /\ clean_coordinates t = Ok t
  /\ (t' <- clean_coordinates t ;; clean_coordinates t') = clean_coordinates t.
Proof.
  intros Hn Ht. split; [|split].
  - cbn [clean_coordinates mapM]. rewrite clean_coord_number by exact Hn.
    reflexivity.
  - apply clean_coordinates_canonical, Ht.
  - rewrite (clean_coordinates_canonical t Ht). cbn [bind].
    apply clean_coordinates_canonical, Ht.
Qed.

Lemma clean_coordinates_idempotent_witness :
  let n := VFloat (S754_finite false 3 (-1)) in
  let t := VList [closed_ring; VList [VInt 7; VBool true; n]] in
  clean_coordinates (VList [n]) = Ok (VList [n])
  /\ clean_coordinates t = Ok t
  /\ (t' <- clean_coordinates t ;; clean_coordinates t') = clean_coordinates t.
Proof.
  apply (clean_coordinates_idempotent
           (VFloat (S754_finite false 3 (-1)))
           (VList [closed_ring;
                   VList [VInt 7; VBool true;
                          VFloat (S754_finite false 3 (-1))]]));
    reflexivity.
Defined.

(** C1. When the raw input is itself a Point, line 43 appends the Point
    object, not its coordinates, and the loop then runs over the keys of the
    Point's mapping: the call raises [ValueError] on the first key, and
    succeeds only on a Point whose mapping is empty, returning a list that
    holds the raw Point object, a leaf that is not a number. *)
Theorem clean_coordinates_Point_raw (items : list (string * value)) :
  clean_coordinates (VObj Point items) =
    match items with
    | [] => Ok (VList [VObj Point []])
    | (k, _) :: _ => Raise (ValueError (VStr k))
    end
  /\ all_leaves_numbers (VList [VObj Point []]) = false
  /\ clean_coordinates (geometry Point (position 1 2)) =
       Raise (ValueError (VStr "coordinates")).
Proof.
  split; [|split; reflexivity].
  destruct items as [|[k v] items]; reflexivity.
Qed.

Lemma elements_sequence (raw : value) (xs : list value) :
  elements raw = Some xs -> raw = VList xs \/ raw = VTuple xs.
Proof.
  destruct raw; try discriminate; intros H; injection H as <-; auto.
Qed.

Lemma element_at_sequence (P : list value -> Prop) (v raw : value) :
  element_at P v raw ->
  is_list_or_tuple raw = true /\ py_or raw (VList []) = raw.
Proof.
  assert (H : forall x pre post,
             elements raw = Some (pre ++ x :: post)%list ->
             is_list_or_tuple raw = true /\ py_or raw (VList []) = raw).
  { intros x pre post E. apply elements_sequence in E as [-> | ->];
      unfold py_or; cbn [is_list_or_tuple py_truthy];
      rewrite length_app; simpl; rewrite Nat.add_succ_r; auto. }
  destruct 1; eauto.
Qed.

Lemma clean_sequence (raw : value) (xs : list value) :
  elements raw = Some xs ->
  clean_coordinates raw =
    (new_coords <- mapM (clean_coord clean_coordinates) xs ;;
     Ok (VList new_coords)).
Proof.
  intros E. apply elements_sequence in E as [-> | ->]; reflexivity.
Qed.

(** An exception of an element the loop reaches, at any depth, is the
    exception of the call. *)
Lemma clean_reached (v raw : value) (e : exn) :
  reached v raw ->
  clean_coord clean_coordinates v = Raise e ->
  clean_coordinates raw = Raise e.
Proof.
  intros H Hv.
  induction H as [raw pre post E Hpre|raw sub pre post E Hpre Hsub IH];
    rewrite (clean_sequence raw _ E), mapM_app;
    unfold all_normalize in Hpre;
    destruct (mapM (clean_coord clean_coordinates) pre); try discriminate;
    cbn [bind mapM].
  - rewrite Hv. reflexivity.
  - destruct (element_at_sequence _ _ _ Hsub) as [Hs _].
    unfold clean_coord at 1. rewrite Hs, IH. reflexivity.
Qed.

(** An element that raises, anywhere in the tree, keeps the call from
    returning. *)
Lemma clean_occurs (v raw : value) :
  occurs v raw ->
  (exists e, clean_coord clean_coordinates v = Raise e) ->
  exists e, clean_coordinates raw = Raise e.
Proof.
  intros H [e Hv].
  induction H as [raw pre post E _|raw sub pre post E _ Hsub [e' IH]];
    rewrite (clean_sequence raw _ E), mapM_app;
    destruct (mapM (clean_coord clean_coordinates) pre);
    try (eexists; reflexivity); cbn [bind mapM].
  - rewrite Hv. eexists; reflexivity.
  - destruct (element_at_sequence _ _ _ Hsub) as [Hs _].
    unfold clean_coord at 1. rewrite Hs, IH. eexists; reflexivity.
Qed.

(** C4. A value [v] that is not a number, not a list or tuple and not a
    Geometry, met as an element at any depth of the lists and tuples of the
    raw input, makes [clean_coordinates] fail: no tree is returned, and
    [Geometry.__init__] fails with the same exception.  When the loop
    reaches [v], the elements before it normalizing at each level, the
    exception is the [ValueError] that carries [v], whatever follows [v]. *)
Theorem clean_coordinates_rejects (raw v : value)
  (cls : pyclass) (base : list (string * value)) (validate : bool) :
  occurs v raw ->
  unrecognised v = true ->
  (exists e, clean_coordinates raw = Raise e
             /\ Geometry_init cls base raw validate = Raise e)
  /\ (reached v raw ->
      clean_coordinates raw = Raise (ValueError v)
      /\ Geometry_init cls base raw validate = Raise (ValueError v)).
Proof.
  intros Ho Hv.
  pose proof (clean_coord_unrecognised clean_coordinates v Hv) as Ev.
  destruct (element_at_sequence _ _ _ Ho) as [_ Hor].
  assert (Hinit : forall e, clean_coordinates raw = Raise e ->
                            Geometry_init cls base raw validate = Raise e).
  { intros e E. unfold Geometry_init. rewrite Hor, E. reflexivity. }
  split.
  - destruct (clean_occurs v raw Ho) as [e E]; eauto.
  - intros Hr. pose proof (clean_reached v raw _ Hr Ev) as E. auto.
Qed.

Lemma clean_coordinates_rejects_witness :
  let raw :=
    VTuple [position 0 0; VList [VInt 1; VTuple [VStr "a"; VNone]]; VNone] in
  clean_coordinates raw = Raise (ValueError (VStr "a"))
  /\ Geometry_init Polygon [] raw true = Raise (ValueError (VStr "a")).
Proof.
  intros raw.
  assert (Ho : occurs (VStr "a") raw).
  { apply element_below
      with (sub := VList [VInt 1; VTuple [VStr "a"; VNone]])
           (pre := [position 0 0]) (post := [VNone]);
      [reflexivity|exact I|].
    apply element_below
      with (sub := VTuple [VStr "a"; VNone]) (pre := [VInt 1]) (post := []);
      [reflexivity|exact I|].
    apply element_here with (pre := []) (post := [VNone]);
      [reflexivity|exact I]. }
  assert (Hr : reached (VStr "a") raw).
  { apply element_below
      with (sub := VList [VInt 1; VTuple [VStr "a"; VNone]])
           (pre := [position 0 0]) (post := [VNone]);
      [reflexivity|reflexivity|].
    apply element_below
      with (sub := VTuple [VStr "a"; VNone]) (pre := [VInt 1]) (post := []);
      [reflexivity|reflexivity|].
    apply element_here with (pre := []) (post := [VNone]); reflexivity. }
  exact (proj2 (clean_coordinates_rejects raw (VStr "a") Polygon [] true
                  Ho eq_refl) Hr).
Defined.

(** C8 fails as stated: [True] is not rejected. *)
Lemma clean_coordinates_accepts_True :
  clean_coordinates (VList [VBool true]) = Ok (VList [VBool true])
  /\ ~ (exists e, clean_coordinates (VList [VBool true]) = Raise e).
Proof.
  split; [reflexivity|]. intros [e H]. discriminate H.
Qed.

(** C8, amended.  [bool] being a subclass of [int], the test of line 49
    holds of a boolean [v]: [clean_coordinates([v])] returns [[v]]. *)
Theorem clean_coordinates_bool (b : bool) :
  is_JSON_compliant (VBool b) = true
  /\ clean_coordinates (VList [VBool b]) = Ok (VList [VBool b]).
Proof. split; reflexivity. Qed.

(** ** Validators *)

Lemma check_numbers_forallb (xs : list value) :
  check_numbers xs =
    if forallb is_JSON_compliant xs then None else Some position_not_number.
Proof.
  induction xs as [|x xs IH]; simpl.
  - reflexivity.
  - destruct (is_JSON_compliant x); simpl; [exact IH|reflexivity].
Qed.

(** C5. [check_point] is the Position check of the specification: not a list
    gives the type message; otherwise a length other than 2 and 3 gives the
    arity message; otherwise the first element that is not a number gives the
    element message; otherwise there is no error.  [Point.errors] on
    coordinates [[1,2]] and [[1,2,3]] returns no error, on [[1]] and
    [[1,2,3,4]] the arity message. *)
Theorem check_point_order (coord : value) :
  check_point coord = position_check coord
  /\ Point_errors (geometry Point (VList [VInt 1; VInt 2])) = Ok None
  /\ Point_errors (geometry Point (VList [VInt 1; VInt 2; VInt 3])) = Ok None
  /\ Point_errors (geometry Point (VList [VInt 1])) =
       Ok (Some position_bad_arity)
  /\ Point_errors (geometry Point (VList [VInt 1; VInt 2; VInt 3; VInt 4])) =
       Ok (Some position_bad_arity)
  /\ check_point (VList [VStr "x"]) = Some position_bad_arity
  /\ check_point (VTuple [VInt 1; VInt 2]) = Some position_not_list
  /\ check_point (VList [VInt 1; VStr "x"; VNone]) =
       Some position_not_number.
Proof.
  split; [|repeat split; reflexivity].
  destruct coord; try reflexivity.
  unfold check_point, position_check. cbv zeta.
  destruct (negb (_ || _)); [reflexivity|].
  rewrite check_numbers_forallb.
  destruct (forallb is_JSON_compliant xs); reflexivity.
Qed.

Lemma allM_rings_long (rings : list (list value)) :
  allM ring_long_enough (map VList rings) =
    Ok (forallb (fun r => 4 <=? Z.of_nat (List.length r)) rings).
Proof.
  induction rings as [|r rings IH]; simpl.
  - reflexivity.
  - destruct (4 <=? Z.of_nat (List.length r)); simpl; [exact IH|reflexivity].
Qed.

Lemma nth_error_last (xs : list value) (d : value) :
  xs <> [] -> nth_error xs (List.length xs - 1) = Some (last xs d).
Proof.
  induction xs as [|x xs IH]; intros H; [congruence|].
  destruct xs as [|y xs]; [reflexivity|].
  change (List.length (x :: y :: xs) - 1)%nat with (S (List.length xs)).
  change (nth_error (y :: xs) (List.length xs) = Some (last (y :: xs) d)).
  rewrite <- IH by discriminate. simpl. rewrite Nat.sub_0_r. reflexivity.
Qed.

(** On a ring of four or more elements, [elem[0] == elem[-1]] compares the
    head of the list with its last element. *)
Lemma ring_closed_list (r : list value) :
(4 <=? Z.of_nat (List.length r)) = true ->
  ring_closed (VList r) = py_eq (hd VNone r) (last r VNone).
Proof.
  intros H. apply Z.leb_le in H.
  unfold ring_closed, getitem_idx.
  assert (H0 : (0 <=? 0) && (0 <? Z.of_nat (List.length r)) = true).
  { apply andb_true_intro. split; [reflexivity|apply Z.ltb_lt; lia]. }
  assert (H1 : (0 <=? -1 + Z.of_nat (List.length r))
               && (-1 + Z.of_nat (List.length r) <? Z.of_nat (List.length r))
               = true).
  { apply andb_true_intro. split; [apply Z.leb_le|apply Z.ltb_lt]; lia. }
  change (0 <? 0) with false. change (-1 <? 0) with true. cbv iota.
  rewrite H0, H1.
  replace (Z.to_nat (-1 + Z.of_nat (List.length r)))
    with (List.length r - 1)%nat by lia.
  rewrite (nth_error_last r VNone)
    by (destruct r; [simpl in H; lia|discriminate]).
  destruct r; [simpl in H; lia|]. reflexivity.
Qed.

Lemma allM_rings_closed (rings : list (list value)) :
  forallb (fun r => 4 <=? Z.of_nat (List.length r)) rings = true ->
  allM ring_closed (map VList rings) =
    allM (fun r => py_eq (hd VNone r) (last r VNone)) rings.
Proof.
  induction rings as [|r rings IH]; simpl; intros H.
  - reflexivity.
  - apply andb_prop in H as [Hr H]. rewrite (ring_closed_list r Hr).
    destruct (py_eq _ _) as [[|]|]; simpl; [exact (IH H)|reflexivity..].
Qed.


(** C10. [check_polygon] on the empty list returns no error, so a Polygon
    built without rings, validation requested, is accepted. *)
Theorem check_polygon_empty :
  check_polygon (VList []) = Ok None
  /\ Polygon_errors (geometry Polygon (VList [])) = Ok None
  /\ Geometry_init Polygon [] (VList []) true =
       Ok (geometry Polygon (VList []))
  /\ Geometry_init Polygon [] VNone true = Ok (geometry Polygon (VList [])).
Proof. repeat split; reflexivity. Qed.

(** C2. [check_polygon] has no type test before [len(elem)]: on the list
    [[1, 2]], which [Polygon([1, 2])] stores as its coordinates, it raises
    [TypeError], as does [Polygon.errors] and the construction when
    validation is requested. *)
Theorem check_polygon_raises :
  check_polygon (VList [VInt 1; VInt 2]) = Raise TypeError
  /\ Geometry_init Polygon [] (VList [VInt 1; VInt 2]) false =
       Ok (geometry Polygon (VList [VInt 1; VInt 2]))
  /\ errors (geometry Polygon (VList [VInt 1; VInt 2])) = Raise TypeError
  /\ Geometry_init Polygon [] (VList [VInt 1; VInt 2]) true = Raise TypeError
  /\ errors (geometry MultiPolygon (VList [VList [VInt 1; VInt 2]])) =
       Raise TypeError.
Proof. repeat split; reflexivity. Qed.

(** ** Collections and multi-element geometries *)

(** C6. [GeometryCollection.errors] calls [errors()] on every member, in
    order, and returns the list of the results that are not empty, in the
    order of the members: when each member [geom] returns [r], the result is
    the [results] filtered by truth value.  This holds for whatever method
    the members resolve [errors] to, and [errors] on a collection is that
    function of [errors] on its members. *)
Theorem GeometryCollection_errors_aggregate
  (errors_method : value -> result value)
  (items : list (string * value)) (geoms results : list value) :
  lookup "geometries" items = Some (VList geoms) ->
  Forall2 (fun geom r => errors_method geom = Ok r) geoms results ->
  GeometryCollection_errors errors_method (VObj GeometryCollection items) =
    Ok (VList (filter py_truthy results))
  /\ errors (VObj GeometryCollection items) =
       GeometryCollection_errors errors (VObj GeometryCollection items).
Proof.
  intros Hl Hr. split; [|apply errors_GeometryCollection].
  unfold GeometryCollection_errors, getitem_key. rewrite Hl.
  cbn [bind py_iter]. apply mapM_Forall2 in Hr. rewrite Hr. reflexivity.
Qed.

Lemma GeometryCollection_errors_aggregate_witness :
  let valid := geometry Point (VList [VInt 1; VInt 2]) in
  let invalid := geometry Point (VList [VInt 1]) in
  let broken := geometry Polygon (VList [VInt 1; VInt 2]) in
  errors (VObj GeometryCollection [("geometries", VList [valid; invalid])]) =
    Ok (VList [VStr position_bad_arity])
  /\ errors (VObj GeometryCollection
               [("geometries", VList [invalid; valid; broken])]) =
       Raise TypeError.
Proof.
  split; [|reflexivity].
  assert (Hr : Forall2 (fun geom r => errors geom = Ok r)
                 [geometry Point (VList [VInt 1; VInt 2]);
                  geometry Point (VList [VInt 1])]
                 [VNone; VStr position_bad_arity])
    by (repeat constructor).
  destruct (GeometryCollection_errors_aggregate errors
              [("geometries",
                 VList [geometry Point (VList [VInt 1; VInt 2]);
                        geometry Point (VList [VInt 1])])]
              _ _ eq_refl Hr) as [H1 H2].
  rewrite H2. exact H1.
Defined.

Lemma first_error_app (checkFunc : value -> result (option string))
  (pre post : list value) (x : value) (e : option string) :
  Forall (fun y => exists r, checkFunc y = Ok r /\ is_error r = false) pre ->
  checkFunc x = Ok e -> is_error e = true ->
  first_error checkFunc (pre ++ x :: post) = Ok e.
Proof.
  intros Hpre Hx He. induction Hpre as [|y pre (r & Hy & Hr) _ IH]; simpl.
  - rewrite Hx. simpl. rewrite He. reflexivity.
  - rewrite Hy. simpl. rewrite Hr. exact IH.
Qed.

Lemma Forall_returns (check : value -> option string) (pre : list value) :
  Forall (fun y => is_error (check y) = false) pre ->
  Forall (fun y => exists r, (fun c => Ok (check c)) y = Ok r
                             /\ is_error r = false) pre.
Proof.
  intros H. eapply Forall_impl; [|exact H]. intros y Hy. eauto.
Qed.

(** C7. [MultiPoint.errors], [MultiLineString.errors] and
    [MultiPolygon.errors] return the result of the check on the first
    element of the coordinate list for which it is not empty: when the
    elements [pre] pass and the element [x] after them fails with [e], the
    result is [e], whatever elements follow [x]. *)
Theorem multi_errors_first (items : list (string * value))
  (pre post : list value) (x : value) (e : option string) :
  lookup "coordinates" items = Some (VList (pre ++ x :: post)) ->
  is_error e = true ->
  (Forall (fun y => is_error (check_point y) = false) pre ->
   check_point x = e ->
   MultiPoint_errors (VObj MultiPoint items) = Ok e)
  /\ (Forall (fun y => is_error (check_line_string y) = false) pre ->
      check_line_string x = e ->
      MultiLineString_errors (VObj MultiLineString items) = Ok e)
  /\ (Forall (fun y => exists r, check_polygon y = Ok r
                                 /\ is_error r = false) pre ->
      check_polygon x = Ok e ->
      MultiPolygon_errors (VObj MultiPolygon items) = Ok e).
Proof.
  intros Hl He.
  unfold MultiPoint_errors, MultiLineString_errors, MultiPolygon_errors,
    getitem_key, check_list_errors.
  rewrite Hl. cbn [bind py_iter].
  split; [|split]; intros Hpre Hx.
  - apply first_error_app; [apply Forall_returns, Hpre|congruence|exact He].
  - apply first_error_app; [apply Forall_returns, Hpre|congruence|exact He].
  - apply first_error_app; assumption.
Qed.

Lemma multi_errors_first_witness :
  MultiPolygon_errors
    (geometry MultiPolygon
       (VList [VList [closed_ring]; VList [short_ring]; VList [open_ring]])) =
    Ok (Some ring_too_short).
Proof.
  assert (Hpre : Forall (fun y => exists r, check_polygon y = Ok r
                                            /\ is_error r = false)
                   [VList [closed_ring]]).
  { constructor; [|constructor]. exists None. split; reflexivity. }
  destruct (multi_errors_first
              [("coordinates",
                 VList [VList [closed_ring]; VList [short_ring];
                        VList [open_ring]])]
              [VList [closed_ring]] [VList [open_ring]]
              (VList [short_ring]) (Some ring_too_short)
              eq_refl eq_refl) as (_ & _ & H).
  exact (H Hpre eq_refl).
Defined.

(** ** Further properties *)

Lemma clean_coordinates_leaves_witness :
  let raw := VList [VTuple [VInt 1; VInt 2]; geometry Point (position 3 4)] in
  clean_coordinates raw = Ok (VList [position 1 2; position 3 4])
  /\ coordinate_tree (VList [position 1 2; position 3 4]) = true.
Proof.
  split; [reflexivity|].
  apply (clean_coordinates_leaves
           (VList [VTuple [VInt 1; VInt 2]; geometry Point (position 3 4)])
           (VList [position 1 2; position 3 4])); reflexivity.
Defined.

Lemma clean_coordinates_fails_deep_witness :
  exists e,
    clean_coordinates (VList [VList [VInt 1; VTuple [VInt 2; VNone]]]) =
      Raise e.
Proof.
  apply (clean_coordinates_fails_deep
           (VList [VList [VInt 1; VTuple [VInt 2; VNone]]])).
  reflexivity.
Defined.

(** ** Mappings *)

Lemma lookup_dict_set (k : string) (v : value)
  (items : list (string * value)) :
  lookup k (dict_set k v items) = Some v.
Proof.
  induction items as [|[k' v'] items IH]; simpl.
  - rewrite String.eqb_refl. reflexivity.
  - destruct (String.eqb k k') eqn:E; simpl.
    + rewrite String.eqb_refl. reflexivity.
    + rewrite E. exact IH.
Qed.

Lemma lookup_dict_set_other (k k' : string) (v : value)
  (items : list (string * value)) :
  k' <> k -> lookup k' (dict_set k v items) = lookup k' items.
Proof.
  intros Hne. apply String.eqb_neq in Hne.
  induction items as [|[k0 v0] items IH]; simpl.
  - rewrite Hne. reflexivity.
  - destruct (String.eqb k k0) eqn:E; simpl.
    + apply String.eqb_eq in E. subst k0. rewrite Hne. reflexivity.
    + rewrite IH. reflexivity.
Qed.

(** ** check_line_string *)

Lemma check_point_valid (p : value) :
  valid_position p = true -> check_point p = None.
Proof.
  destruct p; try discriminate. unfold valid_position, check_point.
  cbv zeta. intros H. apply andb_prop in H as [Ha Hn].
  rewrite Ha. cbn [negb]. rewrite check_numbers_forallb, Hn. reflexivity.
Qed.

Lemma check_point_invalid (p : value) :
  valid_position p = false -> is_error (check_point p) = true.
Proof.
  destruct p; try reflexivity. unfold valid_position, check_point.
  cbv zeta. destruct (_ || _); cbn [negb andb]; [|reflexivity].
  rewrite check_numbers_forallb. intros ->. reflexivity.
Qed.

Lemma check_point_None (p : value) :
  check_point p = None <-> valid_position p = true.
Proof.
  split; [|apply check_point_valid].
  intros H. destruct (valid_position p) eqn:E; [reflexivity|].
  apply check_point_invalid in E. rewrite H in E. discriminate.
Qed.

Lemma check_positions_find (xs : list value) :
  check_positions xs =
    match find (fun p => negb (valid_position p)) xs with
    | Some p => check_point p
    | None => None
    end.
Proof.
  induction xs as [|x xs IH]; simpl.
  - reflexivity.
  - destruct (valid_position x) eqn:E; cbn [negb].
    + rewrite (check_point_valid x E). exact IH.
    + rewrite (check_point_invalid x E). reflexivity.
Qed.

(** X4. [check_line_string] tests in this order: a value that is not a list
    gets the type message; a list of fewer than two elements gets the
    two-or-more message, whatever its element; otherwise the first element
    that is not a valid position decides, and the message is the one
    [check_point] gives for that element.  There is no error exactly when the
    value is a list of two or more lists of 2 or 3 numbers. *)
Theorem check_line_string_order (coord : value) :
  check_line_string coord =
    match coord with
    | VList xs =>
        if Z.of_nat (List.length xs) <? 2 then Some line_too_short
        else match find (fun p => negb (valid_position p)) xs with
             | Some p => check_point p
             | None => None
             end
    | _ => Some line_not_list
    end
  /\ (check_line_string coord = None <-> valid_line coord = true).
Proof.
  assert (E : check_line_string coord =
                match coord with
                | VList xs =>
                    if Z.of_nat (List.length xs) <? 2 then Some line_too_short
                    else match find (fun p => negb (valid_position p)) xs with
                         | Some p => check_point p
                         | None => None
                         end
                | _ => Some line_not_list
                end).
  { destruct coord; try reflexivity. unfold check_line_string.
    rewrite check_positions_find. reflexivity. }
  split; [exact E|]. rewrite E. clear E.
  destruct coord; try (split; discriminate).
  unfold valid_line.
  destruct (Z.ltb_spec (Z.of_nat (List.length xs)) 2) as [Hlt|Hge].
  - replace (2 <=? Z.of_nat (List.length xs)) with false
      by (symmetry; apply Z.leb_gt; exact Hlt).
    split; discriminate.
  - replace (2 <=? Z.of_nat (List.length xs)) with true
      by (symmetry; apply Z.leb_le; exact Hge).
    cbn [andb].
    destruct (find (fun p => negb (valid_position p)) xs) as [p|] eqn:F.
    + apply find_some in F as [Hin Hp]. apply negb_true_iff in Hp.
      split.
      * intros H. apply check_point_None in H. congruence.
      * intros H. rewrite forallb_forall in H. rewrite (H p Hin) in Hp.
        discriminate.
    + split; [intros _|reflexivity].
      apply forallb_forall. intros x Hx.
      pose proof (find_none _ _ F x Hx) as Hn.
      apply negb_false_iff in Hn. exact Hn.
Qed.

(** ** More on clean_coordinates *)

Lemma mapM_map {A B : Type} (f : A -> result B) (g : A -> B) (l : list A) :
  Forall (fun x => f x = Ok (g x)) l -> mapM f l = Ok (map g l).
Proof.
  induction 1 as [|x l Hx _ IH]; simpl.
  - reflexivity.
  - rewrite Hx, IH. reflexivity.
Qed.

Lemma clean_coord_plain (v : value) :
  plain v = true -> clean_coord clean_coordinates v = Ok (listify v).
Proof.
  induction v as [| | | | | |xs IH|xs IH|c items IH] using value_nested_ind;
    try discriminate; try reflexivity;
    intros H; cbn [plain] in H; rewrite forallb_forall in H;
    unfold clean_coord; cbn [is_list_or_tuple clean_coordinates listify];
    rewrite (mapM_map _ listify); try reflexivity;
    rewrite Forall_forall in *; intros x Hx; apply IH; auto.
Qed.

(** X5. On a list or tuple that holds only numbers and lists or tuples of
    the same kind, to any depth, [clean_coordinates] succeeds and returns
    the same tree with every tuple turned into a list: the numbers, their
    order and the nesting are kept. *)
Theorem clean_coordinates_listify (raw : value) :
  is_list_or_tuple raw = true ->
  plain raw = true ->
  clean_coordinates raw = Ok (listify raw).
Proof.
  intros Hs Hp. apply clean_coord_plain in Hp.
  unfold clean_coord in Hp. rewrite Hs in Hp. exact Hp.
Qed.

Lemma clean_coordinates_listify_witness :
  clean_coordinates
    (VTuple [VTuple [VInt 0; VInt 1]; VList [VInt 2; VTuple [VBool true]]]) =
    Ok (VList [VList [VInt 0; VInt 1]; VList [VInt 2; VList [VBool true]]]).
Proof.
  apply (clean_coordinates_listify
           (VTuple [VTuple [VInt 0; VInt 1];
                    VList [VInt 2; VTuple [VBool true]]]));
    reflexivity.
Defined.

Lemma clean_sequence_tree (raw t : value) :
  is_list_or_tuple raw = true ->
  geometries_clean raw = true ->
  clean_coordinates raw = Ok t ->
  coordinate_tree t = true.
Proof.
  intros Hs Hg E.
  assert (Hl : all_leaves_numbers t = true).
  { apply (clean_coord_leaves raw Hg). unfold clean_coord. rewrite Hs.
    exact E. }
  unfold coordinate_tree. rewrite Hl.
  destruct raw; try discriminate; cbn [clean_coordinates] in E;
    destruct (mapM _ xs); try discriminate; injection E as <-; reflexivity.
Qed.

(** X6. Cleaning twice is cleaning once, on every list or tuple whose
    geometries hold canonical trees: when the first call returns a tree, the
    second returns the same tree, and when the first call raises there is
    nothing to clean again. *)
Theorem clean_coordinates_twice (raw : value) :
  is_list_or_tuple raw = true ->
  geometries_clean raw = true ->
  (t <- clean_coordinates raw ;; clean_coordinates t) = clean_coordinates raw.
Proof.
  intros Hs Hg. destruct (clean_coordinates raw) as [t|e] eqn:E;
    [|reflexivity].
  cbn [bind]. apply clean_coordinates_canonical.
  exact (clean_sequence_tree raw t Hs Hg E).
Qed.

Lemma clean_coordinates_twice_witness :
  let raw := VList [VTuple [VInt 1; VInt 2]; geometry Point (position 3 4)] in
  (t <- clean_coordinates raw ;; clean_coordinates t) = clean_coordinates raw.
Proof.
  apply (clean_coordinates_twice
           (VList [VTuple [VInt 1; VInt 2]; geometry Point (position 3 4)]));
    reflexivity.
Defined.

Lemma mapM_length {A B : Type} (f : A -> result B) (l : list A)
  (ys : list B) :
  mapM f l = Ok ys -> List.length ys = List.length l.
Proof.
  intros H. apply mapM_Forall2 in H.
  induction H; simpl; congruence.
Qed.

(** X7. Normalization works element by element: when two lists normalize,
    their concatenation normalizes to the concatenation of the results, and
    each result has as many elements as its input. *)
Theorem clean_coordinates_app (xs ys : list value) (a b : value) :
  clean_coordinates (VList xs) = Ok a ->
  clean_coordinates (VList ys) = Ok b ->
  exists a' b',
    a = VList a' /\ b = VList b'
    /\ List.length a' = List.length xs
    /\ List.length b' = List.length ys
    /\ clean_coordinates (VList (xs ++ ys)) = Ok (VList (a' ++ b')).
Proof.
  cbn [clean_coordinates]. intros Ha Hb.
  destruct (mapM (clean_coord clean_coordinates) xs) as [a'|] eqn:Ea;
    [|discriminate].
  destruct (mapM (clean_coord clean_coordinates) ys) as [b'|] eqn:Eb;
    [|discriminate].
  injection Ha as <-. injection Hb as <-.
  exists a', b'. repeat split.
  - apply (mapM_length _ _ _ Ea).
  - apply (mapM_length _ _ _ Eb).
  - rewrite mapM_app, Ea, Eb. reflexivity.
Qed.

Lemma clean_coordinates_app_witness :
  exists a' b',
    VList [position 0 0] = VList a'
    /\ VList [position 1 1; position 2 2] = VList b'
    /\ List.length a' = 1%nat
    /\ List.length b' = 2%nat
    /\ clean_coordinates
         (VList ([VTuple [VInt 0; VInt 0]]
                 ++ [geometry Point (position 1 1); position 2 2])) =
         Ok (VList (a' ++ b')).
Proof.
  apply (clean_coordinates_app
           [VTuple [VInt 0; VInt 0]]
           [geometry Point (position 1 1); position 2 2]
           (VList [position 0 0])
           (VList [position 1 1; position 2 2])); reflexivity.
Defined.

(** X8. A geometry is unwrapped only as an element.  Given directly as the
    raw input, an object of a class other than Point makes the loop run over
    the keys of its mapping: the call raises [ValueError] on the first key,
    and returns the empty list when the mapping is empty.  Inside a list,
    geometries that have a ["coordinates"] entry are replaced, in order, by
    what that entry holds. *)
Theorem clean_coordinates_geometry (cls : pyclass)
  (items : list (string * value)) (gs ts : list value) :
  cls <> Point ->
  Forall2 (fun g t => isinstance_Geometry g = true
                      /\ getitem_key g "coordinates" = Ok t) gs ts ->
  clean_coordinates (VObj cls items) =
    match items with
    | [] => Ok (VList [])
    | (k, _) :: _ => Raise (ValueError (VStr k))
    end
  /\ clean_coordinates (VList gs) = Ok (VList ts).
Proof.
  intros Hc Hg. split.
  - destruct cls; try congruence; destruct items as [|[k v] items];
      reflexivity.
  - cbn [clean_coordinates].
    assert (E : mapM (clean_coord clean_coordinates) gs = Ok ts).
    { apply mapM_Forall2. eapply Forall2_impl; [|exact Hg].
      intros g t [Hi Ht]. unfold clean_coord. rewrite Hi.
      destruct g; try discriminate. exact Ht. }
    rewrite E. reflexivity.
Qed.

Lemma clean_coordinates_geometry_witness :
  clean_coordinates (geometry MultiPoint (VList [position 0 0])) =
    Raise (ValueError (VStr "coordinates"))
  /\ clean_coordinates
       (VList [geometry Point (position 0 0);
               geometry LineString (VList [position 1 1; position 2 2])]) =
       Ok (VList [position 0 0; VList [position 1 1; position 2 2]]).
Proof.
  assert (Hg : Forall2 (fun g t => isinstance_Geometry g = true
                                   /\ getitem_key g "coordinates" = Ok t)
                 [geometry Point (position 0 0);
                  geometry LineString (VList [position 1 1; position 2 2])]
                 [position 0 0; VList [position 1 1; position 2 2]])
    by (repeat constructor).
  assert (Hc : MultiPoint <> Point) by discriminate.
  exact (clean_coordinates_geometry MultiPoint
           [("coordinates", VList [position 0 0])] _ _ Hc Hg).
Defined.

(** ** Construction *)

Lemma py_truthy_of_error (e : option string) :
  py_truthy (of_error e) = is_error e.
Proof. destruct e; reflexivity. Qed.

Lemma check_line_string_is_error (coord : value) :
  is_error (check_line_string coord) = negb (valid_line coord).
Proof.
  destruct coord; try reflexivity. unfold check_line_string, valid_line.
  destruct (Z.ltb_spec (Z.of_nat (List.length xs)) 2) as [Hlt|Hge].
  - replace (2 <=? Z.of_nat (List.length xs)) with false
      by (symmetry; apply Z.leb_gt; exact Hlt).
    reflexivity.
  - replace (2 <=? Z.of_nat (List.length xs)) with true
      by (symmetry; apply Z.leb_le; exact Hge).
    cbn [andb]. clear Hge. induction xs as [|x xs IH]; simpl.
    + reflexivity.
    + destruct (valid_position x) eqn:E; cbn [andb].
      * rewrite (check_point_valid x E). exact IH.
      * rewrite (check_point_invalid x E). apply check_point_invalid, E.
Qed.

Lemma check_polygon_messages (coord : value) (m : string) :
  check_polygon coord = Ok (Some m) -> is_error (Some m) = true.
Proof.
  unfold check_polygon. destruct (py_iter coord) as [elems|]; [|discriminate].
  cbn [bind]. destruct (allM ring_long_enough elems) as [[|]|];
    cbn [bind negb]; try discriminate.
  - destruct (allM ring_closed elems) as [[|]|]; cbn [bind negb];
      try discriminate.
    intros H. injection H as <-. reflexivity.
  - intros H. injection H as <-. reflexivity.
Qed.

Lemma Point_errors_stored (base : list (string * value)) (t : value) :
  errors (VObj Point (dict_set "coordinates" t base)) =
    Ok (of_error (check_point t)).
Proof.
  cbn [errors]. unfold Point_errors, getitem_key.
  rewrite lookup_dict_set. reflexivity.
Qed.

Lemma LineString_errors_stored (base : list (string * value)) (t : value) :
  errors (VObj LineString (dict_set "coordinates" t base)) =
    Ok (of_error (check_line_string t)).
Proof.
  cbn [errors]. unfold LineString_errors, getitem_key.
  rewrite lookup_dict_set. reflexivity.
Qed.

Lemma Polygon_errors_stored (base : list (string * value)) (t : value) :
  errors (VObj Polygon (dict_set "coordinates" t base)) =
    (e <- check_polygon t ;; Ok (of_error e)).
Proof.
  cbn [errors]. unfold Polygon_errors, getitem_key.
  rewrite lookup_dict_set. reflexivity.
Qed.

(** X9. The constructor stores what [clean_coordinates] returns: when the
    raw coordinates (or the empty list in place of a false value) normalize
    to [t], the new object holds [t] under ["coordinates"] and every other
    entry of the mapping is as the base constructor left it; when they do
    not normalize, construction raises the same exception, validation
    requested or not. *)
Theorem Geometry_init_stores (cls : pyclass) (base : list (string * value))
  (raw : value) :
  match clean_coordinates (py_or raw (VList [])) with
  | Ok t =>
      exists items,
        Geometry_init cls base raw false = Ok (VObj cls items)
        /\ getitem_key (VObj cls items) "coordinates" = Ok t
        /\ forall k, k <> "coordinates" -> lookup k items = lookup k base
  | Raise e =>
      forall validate, Geometry_init cls base raw validate = Raise e
  end.
Proof.
  unfold Geometry_init.
  destruct (clean_coordinates (py_or raw (VList []))) as [t|e].
  - exists (dict_set "coordinates" t base). cbn [bind getitem_key].
    rewrite lookup_dict_set. repeat split.
    intros k Hk. apply lookup_dict_set_other, Hk.
  - reflexivity.
Qed.

(** X10. A false value given as coordinates ([None], [0], [0.0], [False],
    the empty string, list or tuple) stands for the empty list: the object
    holds [[]].  With validation requested, a Point and a LineString built
    this way are refused, with the arity message and the two-or-more message
    and the raw argument in the exception, and a Polygon is accepted. *)
Theorem Geometry_init_falsy (cls : pyclass) (base : list (string * value))
  (raw : value) :
  py_truthy raw = false ->
  Geometry_init cls base raw false =
    Ok (VObj cls (dict_set "coordinates" (VList []) base))
  /\ Geometry_init Point base raw true =
       Raise (ValidationError (VStr position_bad_arity) raw)
  /\ Geometry_init LineString base raw true =
       Raise (ValidationError (VStr line_too_short) raw)
  /\ Geometry_init Polygon base raw true =
       Ok (VObj Polygon (dict_set "coordinates" (VList []) base)).
Proof.
  intros H. unfold Geometry_init, py_or. rewrite H.
  cbn [clean_coordinates mapM bind].
  rewrite Point_errors_stored, LineString_errors_stored,
    Polygon_errors_stored.
  repeat split.
Qed.

Lemma Geometry_init_falsy_witness :
  Geometry_init MultiPoint [("id", VInt 7)] (VInt 0) false =
    Ok (VObj MultiPoint [("id", VInt 7);
                         ("coordinates", VList [])])
  /\ Geometry_init Point [("id", VInt 7)] (VInt 0) true =
       Raise (ValidationError (VStr position_bad_arity) (VInt 0))
  /\ Geometry_init LineString [("id", VInt 7)] (VInt 0) true =
       Raise (ValidationError (VStr line_too_short) (VInt 0))
  /\ Geometry_init Polygon [("id", VInt 7)] (VInt 0) true =
       Ok (VObj Polygon [("id", VInt 7);
                         ("coordinates", VList [])]).
Proof.
  exact (Geometry_init_falsy MultiPoint [("id", VInt 7)]
           (VInt 0) eq_refl).
Defined.

(** X11. Coordinates that are not a sequence.  A number that is not zero is
    not iterable: construction raises [TypeError].  A string that is not
    empty is walked character by character: construction raises
    [ValueError] on its first character. *)
Theorem Geometry_init_scalar (cls : pyclass) (base : list (string * value))
  (n : value) (a : ascii) (s : string) (validate : bool) :
  is_JSON_compliant n = true ->
  py_truthy n = true ->
  Geometry_init cls base n validate = Raise TypeError
  /\ Geometry_init cls base (VStr (String a s)) validate =
       Raise (ValueError (VStr (String a EmptyString))).
Proof.
  intros Hn Ht. unfold Geometry_init, py_or. rewrite Ht. split.
  - destruct n; try discriminate; reflexivity.
  - reflexivity.
Qed.

Lemma Geometry_init_scalar_witness :
  Geometry_init Point [] (VInt 5) false = Raise TypeError
  /\ Geometry_init Point [] (VStr "12") false =
       Raise (ValueError (VStr "1")).
Proof.
  exact (Geometry_init_scalar Point [] (VInt 5) "1"%char "2" false
           eq_refl eq_refl).
Defined.

(** X12. Construction with validation, for the classes whose check is in the
    module.  When the coordinates normalize to [t]: a Point is returned
    exactly when [t] is a list of 2 or 3 numbers, a LineString exactly when
    [t] is a list of two or more such positions, a Polygon exactly when
    [check_polygon] returns nothing; the object is the one built without
    validation; otherwise the exception carries the message of the check
    and the raw coordinates, and an exception of [check_polygon] itself
    leaves the constructor as it is. *)
Theorem Geometry_init_validate (base : list (string * value)) (raw : value) :
  let built (cls : pyclass) (t : value) :=
    VObj cls (dict_set "coordinates" t base) in
  Geometry_init Point base raw true =
    (t <- clean_coordinates (py_or raw (VList [])) ;;
     if valid_position t then Ok (built Point t)
     else Raise (ValidationError (of_error (check_point t)) raw))
  /\ Geometry_init LineString base raw true =
       (t <- clean_coordinates (py_or raw (VList [])) ;;
        if valid_line t then Ok (built LineString t)
        else Raise (ValidationError (of_error (check_line_string t)) raw))
  /\ Geometry_init Polygon base raw true =
       (t <- clean_coordinates (py_or raw (VList [])) ;;
        e <- check_polygon t ;;
        match e with
        | None => Ok (built Polygon t)
        | Some m => Raise (ValidationError (VStr m) raw)
        end).
Proof.
  intros built. unfold Geometry_init, built.
  destruct (clean_coordinates (py_or raw (VList []))) as [t|e];
    [|repeat split].
  cbn [bind].
  rewrite Point_errors_stored, LineString_errors_stored,
    Polygon_errors_stored.
  cbn [bind]. rewrite !py_truthy_of_error. repeat split.
  - destruct (valid_position t) eqn:E.
    + rewrite (check_point_valid t E). reflexivity.
    + rewrite (check_point_invalid t E). reflexivity.
  - rewrite check_line_string_is_error.
    destruct (valid_line t); reflexivity.
  - destruct (check_polygon t) as [[m|]|e] eqn:E; cbn [bind];
      try reflexivity.
    rewrite py_truthy_of_error, (check_polygon_messages t m E). reflexivity.
Qed.

(** X13. The constructor keeps objects well formed.  Built from a list or
    tuple whose geometries hold canonical trees, a geometry holds a
    canonical tree itself, validation requested or not: it can in turn be
    an element of the coordinates of another geometry. *)
Theorem Geometry_init_well_formed (cls : pyclass)
  (base : list (string * value)) (raw g : value) (validate : bool) :
  cls <> GeometryCollection ->
  is_list_or_tuple raw = true ->
  geometries_clean raw = true ->
  Geometry_init cls base raw validate = Ok g ->
  geometries_clean g = true
  /\ exists t, getitem_key g "coordinates" = Ok t
               /\ coordinate_tree t = true.
Proof.
  intros Hc Hs Hg. unfold Geometry_init.
  assert (Hs' : is_list_or_tuple (py_or raw (VList [])) = true)
    by (unfold py_or; destruct (py_truthy raw); [exact Hs|reflexivity]).
  assert (Hg' : geometries_clean (py_or raw (VList [])) = true)
    by (unfold py_or; destruct (py_truthy raw); [exact Hg|reflexivity]).
  destruct (clean_coordinates (py_or raw (VList []))) as [t|e] eqn:E;
    [|discriminate].
  pose proof (clean_sequence_tree _ t Hs' Hg' E) as Ht.
  cbn [bind]. intros H.
  assert (Eg : g = VObj cls (dict_set "coordinates" t base)).
  { destruct validate; [|congruence].
    destruct (errors _) as [errs|]; [|discriminate]. cbn [bind] in H.
    destruct (py_truthy errs); [discriminate|congruence]. }
  subst g. cbn [geometries_clean getitem_key]. rewrite lookup_dict_set.
  split; [|eauto].
  destruct cls; try congruence; exact Ht.
Qed.

Lemma Geometry_init_well_formed_witness :
  let g := geometry LineString (VList [position 0 0; position 1 1]) in
  geometries_clean g = true
  /\ exists t, getitem_key g "coordinates" = Ok t
               /\ coordinate_tree t = true.
Proof.
  assert (Hc : LineString <> GeometryCollection) by discriminate.
  exact (Geometry_init_well_formed LineString []
           (VTuple [geometry Point (position 0 0); VTuple [VInt 1; VInt 1]])
           (geometry LineString (VList [position 0 0; position 1 1]))
           true Hc eq_refl eq_refl eq_refl).
Defined.

(** ** More on validation *)

(** X14. An object that has lost its entry: [errors] on a geometry without
    ["coordinates"], or on a collection without ["geometries"], raises
    [KeyError], and so does [clean_coordinates] when such a geometry is an
    element of the raw list. *)
Theorem errors_missing_key (cls : pyclass) (items : list (string * value)) :
  lookup (match cls with
          | GeometryCollection => "geometries"
          | _ => "coordinates"
          end) items = None ->
  errors (VObj cls items) = Raise KeyError
  /\ (isinstance_Geometry (VObj cls items) = true ->
      clean_coordinates (VList [VObj cls items]) = Raise KeyError).
Proof.
  intros H. split.
  - destruct cls;
      try (cbn [errors]; unfold Point_errors, MultiPoint_errors,
             LineString_errors, MultiLineString_errors, Polygon_errors,
             MultiPolygon_errors, getitem_key; rewrite H; reflexivity).
    rewrite errors_GeometryCollection.
    unfold GeometryCollection_errors, getitem_key. rewrite H. reflexivity.
  - intros Hi. cbn [clean_coordinates mapM]. unfold clean_coord.
    cbn [is_list_or_tuple]. rewrite Hi.
    destruct cls; try discriminate; cbn [getitem_key]; rewrite H;
      reflexivity.
Qed.

Lemma errors_missing_key_witness :
  errors (VObj Polygon [("type", VStr "Polygon")]) = Raise KeyError
  /\ (isinstance_Geometry (VObj Polygon [("type", VStr "Polygon")]) = true ->
      clean_coordinates (VList [VObj Polygon [("type", VStr "Polygon")]]) =
        Raise KeyError).
Proof.
  exact (errors_missing_key Polygon [("type", VStr "Polygon")] eq_refl).
Defined.

Lemma filter_nil_iff {A : Type} (f : A -> bool) (l : list A) :
  filter f l = [] <-> Forall (fun x => f x = false) l.
Proof.
  induction l as [|x l IH]; simpl.
  - split; constructor.
  - destruct (f x) eqn:E.
    + split; [discriminate|]. intros H. inversion H; congruence.
    + rewrite IH. split.
      * intros H. constructor; assumption.
      * intros H. inversion H; assumption.
Qed.

(** X15. A collection is reported valid, with the empty list, exactly when
    the result of every member is empty; and the list of errors is never
    longer than the list of members.  This is when every member's
    [errors()] returns. *)
Theorem GeometryCollection_valid_iff (items : list (string * value))
  (geoms results : list value) :
  lookup "geometries" items = Some (VList geoms) ->
  Forall2 (fun geom r => errors geom = Ok r) geoms results ->
  (errors (VObj GeometryCollection items) = Ok (VList [])
   <-> Forall (fun r => py_truthy r = false) results)
  /\ exists errs,
       errors (VObj GeometryCollection items) = Ok (VList errs)
       /\ (List.length errs <= List.length geoms)%nat.
Proof.
  intros Hl Hr. rewrite errors_GeometryCollection.
  unfold GeometryCollection_errors, getitem_key. rewrite Hl.
  cbn [bind py_iter].
  pose proof (Forall2_length Hr) as Hlen.
  apply mapM_Forall2 in Hr. rewrite Hr. cbn [bind]. split.
  - rewrite <- filter_nil_iff. split; intros H.
    + injection H as H. exact H.
    + rewrite H. reflexivity.
  - exists (filter py_truthy results). split; [reflexivity|].
    rewrite Hlen. apply filter_length_le.
Qed.

Lemma GeometryCollection_valid_iff_witness :
  let members := [geometry Point (position 1 2);
                  geometry LineString (VList [position 0 0; position 1 1])] in
  let coll := [("geometries", VList members)] in
  (errors (VObj GeometryCollection coll) = Ok (VList [])
   <-> Forall (fun r => py_truthy r = false) [VNone; VNone])
  /\ exists errs,
       errors (VObj GeometryCollection coll) = Ok (VList errs)
       /\ (List.length errs <= List.length members)%nat.
Proof.
  assert (Hr : Forall2 (fun geom r => errors geom = Ok r)
                 [geometry Point (position 1 2);
                  geometry LineString (VList [position 0 0; position 1 1])]
                 [VNone; VNone]) by (repeat constructor).
  exact (GeometryCollection_valid_iff
           [("geometries",
              VList [geometry Point (position 1 2);
                     geometry LineString
                       (VList [position 0 0; position 1 1])])]
           _ _ eq_refl Hr).
Defined.

Lemma mapM_returns {A B : Type} (f : A -> result B) (l : list A) :
  Forall (fun x => exists y, f x = Ok y) l -> exists ys, mapM f l = Ok ys.
Proof.
  induction 1 as [|x l [y Hy] _ [ys IH]]; simpl.
  - eauto.
  - rewrite Hy, IH. simpl. eauto.
Qed.

(** X16. An exception of a member leaves the collection's [errors] as it
    is: when the members before [x] return and [x.errors()] raises [e], the
    call raises [e], whatever the earlier members reported and whatever
    follows.  A member that is not an object of the module, such as a bare
    coordinate list, raises [AttributeError] this way. *)
Theorem GeometryCollection_member_raises (items : list (string * value))
  (pre post : list value) (x : value) (e : exn) :
  lookup "geometries" items = Some (VList (pre ++ x :: post)) ->
  Forall (fun geom => exists r, errors geom = Ok r) pre ->
  errors x = Raise e ->
  errors (VObj GeometryCollection items) = Raise e.
Proof.
  intros Hl Hpre Hx. rewrite errors_GeometryCollection.
  unfold GeometryCollection_errors, getitem_key. rewrite Hl.
  cbn [bind py_iter]. rewrite mapM_app.
  destruct (mapM_returns errors pre Hpre) as [ys ->].
  cbn [bind mapM]. rewrite Hx. reflexivity.
Qed.

Lemma GeometryCollection_member_raises_witness :
  errors (VObj GeometryCollection
            [("geometries",
               VList [geometry Point (VList [VInt 1]); position 1 2;
                      geometry Point (position 1 2)])]) =
    Raise AttributeError.
Proof.
  assert (Hpre : Forall (fun geom => exists r, errors geom = Ok r)
                   [geometry Point (VList [VInt 1])]).
  { constructor; [|constructor]. eexists. reflexivity. }
  exact (GeometryCollection_member_raises
           [("geometries",
              VList [geometry Point (VList [VInt 1]); position 1 2;
                     geometry Point (position 1 2)])]
           [geometry Point (VList [VInt 1])]
           [geometry Point (position 1 2)]
           (position 1 2) AttributeError eq_refl Hpre eq_refl).
Defined.

(** X17. A collection inside a collection reports as one entry: when the
    inner collection's [errors()] returns the list [es], the outer list
    holds [es] itself, as a nested list, when [es] is not empty, and nothing
    for it when [es] is empty. *)
Theorem GeometryCollection_nested (items inner : list (string * value))
  (es : list value) :
  lookup "geometries" items = Some (VList [VObj GeometryCollection inner]) ->
  errors (VObj GeometryCollection inner) = Ok (VList es) ->
  errors (VObj GeometryCollection items) =
    Ok (VList match es with
              | [] => []
              | _ :: _ => [VList es]
              end).
Proof.
  intros Hl Hi. rewrite errors_GeometryCollection.
  unfold GeometryCollection_errors, getitem_key. rewrite Hl.
  cbn [bind py_iter mapM]. rewrite Hi. cbn [bind filter py_truthy].
  destruct es; reflexivity.
Qed.

Lemma GeometryCollection_nested_witness :
  errors (VObj GeometryCollection
            [("geometries",
               VList [VObj GeometryCollection
                        [("geometries",
                           VList [geometry Point (VList [VInt 1])])]])]) =
    Ok (VList [VList [VStr position_bad_arity]]).
Proof.
  exact (GeometryCollection_nested
           [("geometries",
              VList [VObj GeometryCollection
                       [("geometries",
                          VList [geometry Point (VList [VInt 1])])]])]
           [("geometries", VList [geometry Point (VList [VInt 1])])]
           [VStr position_bad_arity] eq_refl eq_refl).
Defined.

(** X18. A collection as its constructor builds it: it holds the members
    given (the empty list in place of a false value), its [errors] is the
    aggregate over these members whatever else the mapping holds, and a
    collection built from a false value is valid. *)
Theorem GeometryCollection_init_errors (base : list (string * value))
  (geometries : value) :
  getitem_key (GeometryCollection_init base geometries) "geometries" =
    Ok (py_or geometries (VList []))
  /\ errors (GeometryCollection_init base geometries) =
       (geoms <- py_iter (py_or geometries (VList [])) ;;
        errs <- mapM errors geoms ;;
        Ok (VList (filter py_truthy errs)))
  /\ (py_truthy geometries = false ->
      errors (GeometryCollection_init base geometries) = Ok (VList [])).
Proof.
  unfold GeometryCollection_init. rewrite errors_GeometryCollection.
  unfold GeometryCollection_errors, getitem_key.
  rewrite lookup_dict_set. cbn [bind]. repeat split.
  unfold py_or. intros ->. reflexivity.
Qed.

Lemma allM_Forall2 {A : Type} (f : A -> result bool) (l l' : list A) :
  Forall2 (fun a b => f a = f b) l l' -> allM f l = allM f l'.
Proof.
  induction 1 as [|a b l l' H _ IH]; simpl.
  - reflexivity.
  - rewrite H, IH. reflexivity.
Qed.

Lemma forallb_Forall2 {A : Type} (f : A -> bool) (l l' : list A) :
  Forall2 (fun a b => f a = f b) l l' -> forallb f l = forallb f l'.
Proof.
  induction 1 as [|a b l l' H _ IH]; simpl; congruence.
Qed.

(** X19. [check_polygon] looks at nothing but the length of each ring and
    its two ends: polygons whose rings agree, one by one, in length, first
    element and last element get the same result, whatever lies between the
    ends.  The positions of a ring are never checked. *)
Theorem check_polygon_ends (rings rings' : list (list value)) :
  Forall2 same_ends rings rings' ->
  check_polygon (VList (map VList rings)) =
    check_polygon (VList (map VList rings')).
Proof.
  intros H. unfold check_polygon. cbn [py_iter bind].
  rewrite !allM_rings_long.
  assert (Hlen : forallb (fun r => 4 <=? Z.of_nat (List.length r)) rings =
                   forallb (fun r => 4 <=? Z.of_nat (List.length r)) rings').
  { apply forallb_Forall2. eapply Forall2_impl; [|exact H].
    intros r r' (Hl & _ & _). rewrite Hl. reflexivity. }
  rewrite <- Hlen. cbn [bind].
  destruct (forallb (fun r => 4 <=? Z.of_nat (List.length r)) rings) eqn:E;
    cbn [negb]; [|reflexivity].
  rewrite (allM_rings_closed rings E).
  rewrite (allM_rings_closed rings') by (rewrite <- Hlen; reflexivity).
  assert (Hends : allM (fun r => py_eq (hd VNone r) (last r VNone)) rings =
                    allM (fun r => py_eq (hd VNone r) (last r VNone)) rings').
  { apply allM_Forall2. eapply Forall2_impl; [|exact H].
    intros r r' (_ & Hh & Ht). rewrite Hh, Ht. reflexivity. }
  rewrite Hends. reflexivity.
Qed.

Lemma check_polygon_ends_witness :
  check_polygon
    (VList (map VList [[position 0 0; position 1 0; position 1 1;
                        position 0 0]])) =
    check_polygon
      (VList (map VList [[position 0 0; VList [VInt 1]; VList [];
                          position 0 0]])).
Proof.
  apply (check_polygon_ends
           [[position 0 0; position 1 0; position 1 1; position 0 0]]
           [[position 0 0; VList [VInt 1]; VList []; position 0 0]]).
  repeat constructor.
Defined.

(** X20. The three checks of the module accept disjoint sets of
    coordinates.  A valid position is refused as a line, its numbers not
    being lists, and makes [check_polygon] raise [TypeError]; a valid line
    is refused as a position and as a polygon, its positions being too
    short for rings; and coordinates that [check_polygon] accepts are
    refused both as a position and as a line. *)
Theorem checks_disjoint (t : value) :
  (valid_position t = true ->
   check_line_string t = Some position_not_list
   /\ check_polygon t = Raise TypeError)
  /\ (valid_line t = true ->
      is_error (check_point t) = true
      /\ check_polygon t = Ok (Some ring_too_short))
  /\ (check_polygon t = Ok None ->
      is_error (check_point t) = true
      /\ is_error (check_line_string t) = true).
Proof.
  split; [|split].
  - destruct t as [| | | | | |xs| |]; try discriminate.
    unfold valid_position. cbv zeta. intros H.
    apply andb_prop in H as [Ha Hn].
    destruct xs as [|x xs]; [discriminate|].
    cbn [forallb] in Hn. apply andb_prop in Hn as [Hx _].
    assert (Hlen : (Z.of_nat (List.length (x :: xs)) <? 2) = false).
    { apply Z.ltb_ge. apply orb_prop in Ha as [Ha|Ha];
        apply Z.eqb_eq in Ha; lia. }
    unfold check_line_string. rewrite Hlen.
    destruct x; try discriminate; split; reflexivity.
  - destruct t as [| | | | | |xs| |]; try discriminate.
    unfold valid_line. intros H. apply andb_prop in H as [Hl Hp].
    destruct xs as [|x xs]; [discriminate|].
    cbn [forallb] in Hp. apply andb_prop in Hp as [Hx _].
    destruct x as [| | | | | |ys| |]; try discriminate.
    split.
    + apply check_point_invalid. unfold valid_position. cbv zeta.
      cbn [forallb is_JSON_compliant]. apply andb_false_r.
    + unfold valid_position in Hx. cbv zeta in Hx.
      apply andb_prop in Hx as [Ha _].
      assert (Hr : (4 <=? Z.of_nat (List.length ys)) = false).
      { apply Z.leb_gt. apply orb_prop in Ha as [Ha|Ha];
          apply Z.eqb_eq in Ha; lia. }
      unfold check_polygon. cbn [py_iter bind allM].
      unfold ring_long_enough at 1. cbn [py_len bind]. rewrite Hr.
      reflexivity.
  - intros H. rewrite check_line_string_is_error.
    destruct t as [| | | | | |xs| |]; try discriminate;
      try (split; reflexivity).
    destruct xs as [|x xs]; [split; reflexivity|].
    assert (Hx : valid_position x = false /\ is_JSON_compliant x = false).
    { unfold check_polygon in H. cbn [py_iter bind allM] in H.
      unfold ring_long_enough at 1 in H.
      destruct x as [| | | | | |ys| |]; try discriminate;
        try (split; reflexivity).
      cbn [py_len bind] in H. split; [|reflexivity].
      unfold valid_position. cbv zeta.
      destruct (Z.leb_spec 4 (Z.of_nat (List.length ys))) as [Hge|Hlt].
      - replace (Z.of_nat (List.length ys) =? 2) with false
          by (symmetry; apply Z.eqb_neq; lia).
        replace (Z.of_nat (List.length ys) =? 3) with false
          by (symmetry; apply Z.eqb_neq; lia).
        reflexivity.
      - cbn [bind negb] in H. discriminate. }
    destruct Hx as [Hv Hn]. split.
    + apply check_point_invalid. unfold valid_position. cbv zeta.
      cbn [forallb]. rewrite Hn. cbn [andb]. apply andb_false_r.
    + unfold valid_line. cbn [forallb]. rewrite Hv. cbn [andb].
      rewrite andb_false_r. reflexivity.
Qed.

Lemma checks_disjoint_witness :
  (check_line_string (position 1 2) = Some position_not_list
   /\ check_polygon (position 1 2) = Raise TypeError)
  /\ (is_error (check_point (VList [position 0 0; position 1 1])) = true
      /\ check_polygon (VList [position 0 0; position 1 1]) =
           Ok (Some ring_too_short))
  /\ (is_error (check_point (VList [closed_ring])) = true
      /\ is_error (check_line_string (VList [closed_ring])) = true).
Proof.
  split; [|split].
  - exact (proj1 (checks_disjoint (position 1 2)) eq_refl).
  - exact (proj1 (proj2 (checks_disjoint (VList [position 0 0; position 1 1])))
             eq_refl).
  - exact (proj2 (proj2 (checks_disjoint (VList [closed_ring]))) eq_refl).
Defined.
